(** * DenoisingModel: the training / inference orchestrator

    A shallow embedding of [codes/config/deraining/models/denoising_model.py].

    The Python class holds a wrapped network, an Adam optimizer, a loss
    module and the tensors of the current step, and drives an SDE object
    that the caller hands in at every call.  Tensors, the network, the
    optimizer and the SDE belong to other modules; they appear here as an
    interface ([Runtime], [BaseOps], [SDE]).  What is embedded is the
    control logic of the class itself: which attribute is read or written,
    in which order the collaborators are called, and where an exception
    leaves the object. *)

From Stdlib Require Import String List ZArith Bool.
Import ListNotations.
Local Open Scope string_scope.
Local Open Scope list_scope.

Set Implicit Arguments.

(** ** Python exceptions and results *)

Inductive exn : Type :=
| AttributeError (obj attr : string)
| NotImplementedError (msg : string)
| IndexError (msg : string)
| ValueError (msg : string)
| RuntimeError (msg : string)
| ExternalError (msg : string).

Inductive outcome (A : Type) : Type :=
| Ok (a : A)
| Raise (e : exn).
Arguments Ok {A} a.
Arguments Raise {A} e.

Definition is_ok {A} (r : outcome A) : bool :=
  match r with Ok _ => true | Raise _ => false end.

(** ** State with exceptions

    A Python method mutates [self] and its collaborators and may raise
    half-way: what was written before the [raise] stays written.  So the
    state is returned on both outcomes. *)

Definition M (S A : Type) : Type := S -> outcome A * S.

Definition ret {S A} (a : A) : M S A := fun s => (Ok a, s).

Definition raise {S A} (e : exn) : M S A := fun s => (Raise e, s).

Definition bind {S A B} (m : M S A) (k : A -> M S B) : M S B :=
  fun s =>
    match m s with
    | (Ok a, s') => k a s'
    | (Raise e, s') => (Raise e, s')
    end.

Definition gets {S A} (f : S -> A) : M S A := fun s => (Ok (f s), s).

Definition modify {S} (f : S -> S) : M S unit := fun s => (Ok tt, f s).

Declare Scope py_scope.
Delimit Scope py_scope with py.
Notation "x <- m ;; k" := (bind m (fun x => k))
  (at level 61, m at next level, right associativity) : py_scope.
Notation "m ;; k" := (bind m (fun _ => k))
  (at level 61, right associativity) : py_scope.
Local Open Scope py_scope.

(** ** OrderedDict with string keys

    [d[k] = v] replaces the value of an existing key in place and appends
    a new key at the end. *)

Definition odict (V : Type) : Type := list (string * V).

Fixpoint odict_set {V} (d : odict V) (k : string) (v : V) : odict V :=
  match d with
  | [] => [(k, v)]
  | (k', v') :: d' =>
      if String.eqb k' k then (k, v) :: d' else (k', v') :: odict_set d' k v
  end.

Fixpoint odict_get {V} (d : odict V) (k : string) : option V :=
  match d with
  | [] => None
  | (k', v') :: d' => if String.eqb k' k then Some v' else odict_get d' k
  end.

(** ** The tensor framework

    Everything the class asks of torch.  [Net] is a module's parameter
    store, values and [.grad] buffers together; [Value] is a plain Python
    value (a float of the configuration, the result of [.item()]).  The
    constructors of the loss module and of Adam check their arguments
    and may raise, and so may the autograd engine. *)

Class Runtime : Type := {
  Tensor : Type;
  Device : Type;
  Value : Type;
  Net : Type;
  Param : Type;
  Adam : Type;
  LossFn : Type;
  SdeSt : Type;
  (* tensors *)
  tensor_to : Tensor -> Device -> Tensor;
  squeeze : Tensor -> Tensor;
  detach : Tensor -> Tensor;
  getitem0 : Tensor -> option Tensor;
  float : Tensor -> Tensor;
  cpu : Tensor -> Tensor;
  value_mul : Value -> Tensor -> Tensor;
  item : Tensor -> Value;
  (* Python values *)
  truthy : Value -> bool;
  int_zero : Value;
  (* modules *)
  net_to : Net -> Device -> Net;
  named_parameters : Net -> list (string * Param);
  requires_grad : Param -> bool;
  MatchingLoss : Value -> Value -> outcome LossFn;
  loss_to : LossFn -> Device -> LossFn;
  loss_call : LossFn -> Tensor -> Tensor -> Tensor;
  (* autograd and optimizer *)
  backward : Tensor -> Net -> outcome Net;
  Adam_new : list Param -> Value -> Value -> Value * Value -> outcome Adam;
  zero_grad : Adam -> Net -> Net;
  adam_step : Adam -> Net -> Adam * Net;
  (* process environment *)
  get_rank : Z;
  current_device : Z
}.

Section Orchestrator.

Context {RT : Runtime}.

(** ** Configuration *)

Record TrainOpt : Type := {
  is_weighted : Value;
  loss_type : Value;
  weight_opt : Value;
  weight_decay_G : Value;
  lr_G : Value;
  beta1 : Value;
  beta2 : Value;
  lr_scheme : string;
  lr_steps : Value;
  restarts : Value;
  restart_weights : Value;
  lr_gamma : Value;
  clear_state : Value;
  T_period : Value;
  eta_min : Value
}.

Record PathOpt : Type := {
  pretrain_model_G : option string;
  strict_load : bool
}.

Record Opt : Type := {
  dist : bool;
  train : TrainOpt;
  path : PathOpt
}.

(** ** The wrapped network *)

Inductive Wrapper : Type :=
| DataParallel
| DistributedDataParallel (device_ids : list Z).

Record Model : Type := {
  wrapper : Wrapper;
  module : Net;
  training : bool
}.

Definition set_module (n : Net) (m : Model) : Model :=
  {| wrapper := wrapper m; module := n; training := training m |}.

Definition set_training (b : bool) (m : Model) : Model :=
  {| wrapper := wrapper m; module := module m; training := b |}.

(** ** Optimizers and schedulers

    [self.optimizer] and the entry of [self.optimizers] are one object, and
    each scheduler holds that object too.  The Adam state is stored once,
    in the [optimizer] field; the list and the schedulers refer to it. *)

Inductive OptRef : Type := SelfOptimizer.

Inductive Scheduler : Type :=
| MultiStepLR_Restart (o : OptRef) (steps restarts weights gamma clear : Value)
| CosineAnnealingLR_Restart (o : OptRef) (T_period eta_min restarts weights : Value).

(** ** What the collaborators see and what is recorded

    An SDE method and the checkpoint utilities run outside this file.  Each
    call is recorded, with its arguments, in the order it is made. *)

Inductive Event : Type :=
| EvDefineG
| EvLoadNetwork (load_path : string) (strict : bool)
| EvSaveNetwork (label : string) (iter_label : Value)
| EvLogInfo (msg : string)
| EvLogWarning (msg : string)
| EvSetMu (mu : Tensor)
| EvNoiseFn (x t : Tensor)
| EvGetScoreFromNoise (noise t : Tensor)
| EvReverseSdeStepMean (x score t : Tensor)
| EvReverseOptimumStep (x x0 t : Tensor)
| EvReverseSde (x : Tensor) (save_states : bool) (grad_on : bool) (train_mode : bool)
| EvReverseOde (x : Tensor) (save_states : bool) (grad_on : bool) (train_mode : bool)
| EvModelEval
| EvModelTrain
| EvZeroGrad
| EvLossFn (a b : Tensor)
| EvBackward (loss : Tensor)
| EvOptimizerStep.

(** The SDE object reaches the network through the reference it was given
    before training; a method reads it and the gradient switch. *)
Record Ctx : Type := {
  ctx_model : Model;
  ctx_grad : bool
}.

(** The SDE object of the caller: its methods over its own state.  Any of
    them may raise. *)
Record SDE : Type := {
  set_mu : Tensor -> SdeSt -> outcome unit * SdeSt;
  noise_fn : Ctx -> Tensor -> Tensor -> SdeSt -> outcome Tensor * SdeSt;
  get_score_from_noise : Tensor -> Tensor -> SdeSt -> outcome Tensor * SdeSt;
  reverse_sde_step_mean : Tensor -> Tensor -> Tensor -> SdeSt -> outcome Tensor * SdeSt;
  reverse_optimum_step : Tensor -> Tensor -> Tensor -> SdeSt -> outcome Tensor * SdeSt;
  reverse_sde : Ctx -> Tensor -> bool -> SdeSt -> outcome Tensor * SdeSt;
  reverse_ode : Ctx -> Tensor -> bool -> SdeSt -> outcome Tensor * SdeSt
}.

(** ** The base class and the other modules of the repository

    [BaseModel], [models.networks] and the checkpoint helpers are not part
    of this file.  The constructor of the base class is taken to fix the
    device and the training switch from the options and to start with the
    two lists it hands over; [define_G] and the checkpoint helpers may
    raise. *)

Record BaseFields : Type := {
  base_device : Device;
  base_is_train : bool;
  base_optimizers : list OptRef;
  base_schedulers : list Scheduler
}.

Class BaseOps : Type := {
  super_init : Opt -> BaseFields;
  define_G : Opt -> outcome Net;
  load_network : string -> Model -> bool -> outcome Model;
  save_network : Model -> string -> Value -> outcome unit
}.

Context {BO : BaseOps}.

(** ** The object *)

Record DenoisingModel : Type := {
  opt : Opt;
  device : Device;
  is_train : bool;
  rank : Z;
  model : Model;
  optimizers : list OptRef;
  schedulers : list Scheduler;
  (* set by the constructor in training mode only *)
  loss_fn : option LossFn;
  weight : option Value;
  optimizer : option Adam;
  log_dict : option (odict Value);
  (* set by feed_data and test *)
  state : option Tensor;
  condition : option Tensor;
  state_0 : option Tensor;
  output : option Tensor
}.

(** What lives outside the object. *)
Record Env : Type := {
  sde_st : SdeSt;
  grad_enabled : bool;
  calls : list Event
}.

Record World : Type := {
  self : DenoisingModel;
  env : Env
}.

(** Field updates ([self.x = v]). *)

Definition set_model (m : Model) (s : DenoisingModel) : DenoisingModel :=
  {| opt := opt s; device := device s; is_train := is_train s; rank := rank s;
     model := m; optimizers := optimizers s; schedulers := schedulers s;
     loss_fn := loss_fn s; weight := weight s; optimizer := optimizer s;
     log_dict := log_dict s; state := state s; condition := condition s;
     state_0 := state_0 s; output := output s |}.

Definition set_optimizers (l : list OptRef) (s : DenoisingModel) : DenoisingModel :=
  {| opt := opt s; device := device s; is_train := is_train s; rank := rank s;
     model := model s; optimizers := l; schedulers := schedulers s;
     loss_fn := loss_fn s; weight := weight s; optimizer := optimizer s;
     log_dict := log_dict s; state := state s; condition := condition s;
     state_0 := state_0 s; output := output s |}.

Definition set_schedulers (l : list Scheduler) (s : DenoisingModel) : DenoisingModel :=
  {| opt := opt s; device := device s; is_train := is_train s; rank := rank s;
     model := model s; optimizers := optimizers s; schedulers := l;
     loss_fn := loss_fn s; weight := weight s; optimizer := optimizer s;
     log_dict := log_dict s; state := state s; condition := condition s;
     state_0 := state_0 s; output := output s |}.

Definition set_loss_fn (v : LossFn) (s : DenoisingModel) : DenoisingModel :=
  {| opt := opt s; device := device s; is_train := is_train s; rank := rank s;
     model := model s; optimizers := optimizers s; schedulers := schedulers s;
     loss_fn := Some v; weight := weight s; optimizer := optimizer s;
     log_dict := log_dict s; state := state s; condition := condition s;
     state_0 := state_0 s; output := output s |}.

Definition set_weight (v : Value) (s : DenoisingModel) : DenoisingModel :=
  {| opt := opt s; device := device s; is_train := is_train s; rank := rank s;
     model := model s; optimizers := optimizers s; schedulers := schedulers s;
     loss_fn := loss_fn s; weight := Some v; optimizer := optimizer s;
     log_dict := log_dict s; state := state s; condition := condition s;
     state_0 := state_0 s; output := output s |}.

Definition set_optimizer (v : Adam) (s : DenoisingModel) : DenoisingModel :=
  {| opt := opt s; device := device s; is_train := is_train s; rank := rank s;
     model := model s; optimizers := optimizers s; schedulers := schedulers s;
     loss_fn := loss_fn s; weight := weight s; optimizer := Some v;
     log_dict := log_dict s; state := state s; condition := condition s;
     state_0 := state_0 s; output := output s |}.

Definition set_log_dict (v : odict Value) (s : DenoisingModel) : DenoisingModel :=
  {| opt := opt s; device := device s; is_train := is_train s; rank := rank s;
     model := model s; optimizers := optimizers s; schedulers := schedulers s;
     loss_fn := loss_fn s; weight := weight s; optimizer := optimizer s;
     log_dict := Some v; state := state s; condition := condition s;
     state_0 := state_0 s; output := output s |}.

Definition set_state (v : Tensor) (s : DenoisingModel) : DenoisingModel :=
  {| opt := opt s; device := device s; is_train := is_train s; rank := rank s;
     model := model s; optimizers := optimizers s; schedulers := schedulers s;
     loss_fn := loss_fn s; weight := weight s; optimizer := optimizer s;
     log_dict := log_dict s; state := Some v; condition := condition s;
     state_0 := state_0 s; output := output s |}.

Definition set_condition (v : Tensor) (s : DenoisingModel) : DenoisingModel :=
  {| opt := opt s; device := device s; is_train := is_train s; rank := rank s;
     model := model s; optimizers := optimizers s; schedulers := schedulers s;
     loss_fn := loss_fn s; weight := weight s; optimizer := optimizer s;
     log_dict := log_dict s; state := state s; condition := Some v;
     state_0 := state_0 s; output := output s |}.

Definition set_state_0 (v : Tensor) (s : DenoisingModel) : DenoisingModel :=
  {| opt := opt s; device := device s; is_train := is_train s; rank := rank s;
     model := model s; optimizers := optimizers s; schedulers := schedulers s;
     loss_fn := loss_fn s; weight := weight s; optimizer := optimizer s;
     log_dict := log_dict s; state := state s; condition := condition s;
     state_0 := Some v; output := output s |}.

Definition set_output (v : Tensor) (s : DenoisingModel) : DenoisingModel :=
  {| opt := opt s; device := device s; is_train := is_train s; rank := rank s;
     model := model s; optimizers := optimizers s; schedulers := schedulers s;
     loss_fn := loss_fn s; weight := weight s; optimizer := optimizer s;
     log_dict := log_dict s; state := state s; condition := condition s;
     state_0 := state_0 s; output := Some v |}.

Definition set_grad_enabled (b : bool) (e : Env) : Env :=
  {| sde_st := sde_st e; grad_enabled := b; calls := calls e |}.

Definition record_call (ev : Event) (e : Env) : Env :=
  {| sde_st := sde_st e; grad_enabled := grad_enabled e; calls := calls e ++ [ev] |}.

Definition set_sde_st (st : SdeSt) (e : Env) : Env :=
  {| sde_st := st; grad_enabled := grad_enabled e; calls := calls e |}.

(** ** Primitive steps of a method body *)

(** [self.x] as an expression: an attribute never assigned raises. *)
Definition getattr {A} (f : DenoisingModel -> option A) (name : string) : M World A :=
  fun w =>
    match f (self w) with
    | Some v => (Ok v, w)
    | None => (Raise (AttributeError "DenoisingModel" name), w)
    end.

(** [self.x] for an attribute every constructed object has. *)
Definition getfield {A} (f : DenoisingModel -> A) : M World A :=
  gets (fun w => f (self w)).

(** [self.x = v] and in-place changes of what [self] holds. *)
Definition update_self (f : DenoisingModel -> DenoisingModel) : M World unit :=
  modify (fun w => {| self := f (self w); env := env w |}).

Definition update_env (f : Env -> Env) : M World unit :=
  modify (fun w => {| self := self w; env := f (env w) |}).

Definition emit (ev : Event) : M World unit := update_env (record_call ev).

(** [sde.name]: the keyword default of [sde] is [None], which has no
    attributes. *)
Definition sde_attr (sde : option SDE) (name : string) : M World SDE :=
  match sde with
  | Some sd => ret sd
  | None => raise (AttributeError "NoneType" name)
  end.

(** A call of an SDE method: recorded, then run on the SDE's state. *)
Definition call_sde {A} (ev : Event) (method : SdeSt -> outcome A * SdeSt) : M World A :=
  emit ev ;;
  fun w =>
    let (r, st') := method (sde_st (env w)) in
    (r, {| self := self w; env := set_sde_st st' (env w) |}).

(** A call of a helper that may raise and touches nothing here. *)
Definition lift_outcome {A} (r : outcome A) : M World A :=
  fun w => (r, w).

Definition current_ctx : M World Ctx :=
  gets (fun w => {| ctx_model := model (self w); ctx_grad := grad_enabled (env w) |}).

(** [self.model.eval()] and [self.model.train()]. *)
Definition model_eval : M World unit :=
  emit EvModelEval ;;
  update_self (fun s => set_model (set_training false (model s)) s).

Definition model_train : M World unit :=
  emit EvModelTrain ;;
  update_self (fun s => set_model (set_training true (model s)) s).

(** [with torch.no_grad(): body]: gradient tracking is switched off for
    the body and put back to what it was when the block is left, by a
    normal exit or by an exception. *)
Definition with_no_grad {A} (body : M World A) : M World A :=
  fun w =>
    let prev := grad_enabled (env w) in
    let (r, w') := body {| self := self w; env := set_grad_enabled false (env w) |} in
    (r, {| self := self w'; env := set_grad_enabled prev (env w') |}).

(** [loss.backward()].  A loss computed while gradient tracking is off
    carries no graph and the call raises; otherwise the autograd engine
    runs, and may raise itself.  The pass is recorded once it has run. *)
Definition loss_backward (loss : Tensor) : M World unit :=
  g <- gets (fun w => grad_enabled (env w)) ;;
  n <- getfield (fun s => module (model s)) ;;
  n' <- (if g then lift_outcome (backward loss n)
         else raise (RuntimeError
                "element 0 of tensors does not require grad and does not have a grad_fn")) ;;
  emit (EvBackward loss) ;;
  update_self (fun s => set_model (set_module n' (model s)) s).

(** ** The methods *)

(** [feed_data(self, state, LQ, GT=None)] *)
Definition feed_data (st LQ : Tensor) (GT : option Tensor) : M World unit :=
  dev <- getfield device ;;
  update_self (set_state (tensor_to st dev)) ;;
  dev <- getfield device ;;
  update_self (set_condition (tensor_to LQ dev)) ;;
  match GT with
  | Some gt =>
      dev <- getfield device ;;
      update_self (set_state_0 (tensor_to gt dev))
  | None => ret tt
  end.

(** [optimize_parameters(self, step, timesteps, sde=None)] *)
Definition optimize_parameters (step : Value) (timesteps : Tensor) (sde : option SDE)
  : M World unit :=
  sd <- sde_attr sde "set_mu" ;;
  c <- getattr condition "condition" ;;
  call_sde (EvSetMu c) (set_mu sd c) ;;
  ad <- getattr optimizer "optimizer" ;;
  emit EvZeroGrad ;;
  update_self (fun s => set_model (set_module (zero_grad ad (module (model s))) (model s)) s) ;;
  dev <- getfield device ;;
  let timesteps := tensor_to timesteps dev in
  (* Get noise and score *)
  x <- getattr state "state" ;;
  ctx <- current_ctx ;;
  noise <- call_sde (EvNoiseFn x (squeeze timesteps)) (noise_fn sd ctx x (squeeze timesteps)) ;;
  score <- call_sde (EvGetScoreFromNoise noise timesteps)
                    (get_score_from_noise sd noise timesteps) ;;
  (* Learning the maximum likelihood objective for state x_{t-1} *)
  x <- getattr state "state" ;;
  xt_1_expection <- call_sde (EvReverseSdeStepMean x score timesteps)
                             (reverse_sde_step_mean sd x score timesteps) ;;
  x <- getattr state "state" ;;
  x0 <- getattr state_0 "state_0" ;;
  xt_1_optimum <- call_sde (EvReverseOptimumStep x x0 timesteps)
                           (reverse_optimum_step sd x x0 timesteps) ;;
  wt <- getattr weight "weight" ;;
  lf <- getattr loss_fn "loss_fn" ;;
  emit (EvLossFn xt_1_expection xt_1_optimum) ;;
  let loss := value_mul wt (loss_call lf xt_1_expection xt_1_optimum) in
  loss_backward loss ;;
  ad <- getattr optimizer "optimizer" ;;
  emit EvOptimizerStep ;;
  update_self (fun s =>
    let (ad', n') := adam_step ad (module (model s)) in
    set_optimizer ad' (set_model (set_module n' (model s)) s)) ;;
  (* set log *)
  let v := item loss in
  ld <- getattr log_dict "log_dict" ;;
  update_self (set_log_dict (odict_set ld "loss" v)).

(** [test(self, sde=None, perform_ode=False, save_states=False)] *)
Definition test (sde : option SDE) (perform_ode save_states : bool) : M World unit :=
  sd <- sde_attr sde "set_mu" ;;
  c <- getattr condition "condition" ;;
  call_sde (EvSetMu c) (set_mu sd c) ;;
  model_eval ;;
  with_no_grad (
    if negb perform_ode then
      (* for SDE *)
      x <- getattr state "state" ;;
      ctx <- current_ctx ;;
      out <- call_sde (EvReverseSde x save_states (ctx_grad ctx) (training (ctx_model ctx)))
                      (reverse_sde sd ctx x save_states) ;;
      update_self (set_output out)
    else
      (* if perform Denoising ODE *)
      x <- getattr state "state" ;;
      ctx <- current_ctx ;;
      out <- call_sde (EvReverseOde x save_states (ctx_grad ctx) (training (ctx_model ctx)))
                      (reverse_ode sd ctx x save_states) ;;
      update_self (set_output out)) ;;
  model_train.

(** [get_current_log(self)] *)
Definition get_current_log : M World (odict Value) :=
  getattr log_dict "log_dict".

(** [t.detach()[0].float().cpu()]; indexing an empty batch raises. *)
Definition first_item (t : Tensor) : M World Tensor :=
  match getitem0 (detach t) with
  | Some t0 => ret (cpu (float t0))
  | None => raise (IndexError "index 0 is out of bounds")
  end.

(** [get_current_visuals(self, need_GT=True)] *)
Definition get_current_visuals (need_GT : bool) : M World (odict Tensor) :=
  let out_dict : odict Tensor := [] in
  c <- getattr condition "condition" ;;
  v <- first_item c ;;
  let out_dict := odict_set out_dict "Input" v in
  o <- getattr output "output" ;;
  v <- first_item o ;;
  let out_dict := odict_set out_dict "Output" v in
  if need_GT then
    g <- getattr state_0 "state_0" ;;
    v <- first_item g ;;
    let out_dict := odict_set out_dict "GT" v in
    ret out_dict
  else
    ret out_dict.

(** [load(self)] *)
Definition load : M World unit :=
  load_path_G <- getfield (fun s => pretrain_model_G (path (opt s))) ;;
  match load_path_G with
  | Some p =>
      emit (EvLogInfo ("Loading model for G [" ++ p ++ "] ...")) ;;
      m <- getfield model ;;
      strict <- getfield (fun s => strict_load (path (opt s))) ;;
      emit (EvLoadNetwork p strict) ;;
      m' <- lift_outcome (load_network p m strict) ;;
      update_self (set_model m')
  | None => ret tt
  end.

(** [save(self, iter_label)] *)
Definition save (iter_label : Value) : M World unit :=
  m <- getfield model ;;
  emit (EvSaveNetwork "G" iter_label) ;;
  lift_outcome (save_network m "G" iter_label).

(** ** The constructor

    Up to [self.model = ...] the constructor only binds what every later
    line relies on; from [self.load()] on it runs as a method body on the
    object built so far.  A constructor that raises leaves no object. *)

(** The loop over [self.model.named_parameters()]. *)
Fixpoint collect_params (ps : list (string * Param)) (optim_params : list Param)
  : M World (list Param) :=
  match ps with
  | [] => ret optim_params
  | (k, v) :: ps' =>
      if requires_grad v then
        collect_params ps' (optim_params ++ [v])
      else
        rk <- getfield rank ;;
        (if (rk <=? 0)%Z
         then emit (EvLogWarning ("Params [" ++ k ++ "] will not optimize."))
         else ret tt) ;;
        collect_params ps' optim_params
  end.

(** [for optimizer in self.optimizers: self.schedulers.append(mk(optimizer))] *)
Fixpoint append_schedulers (mk : OptRef -> Scheduler) (os : list OptRef) : M World unit :=
  match os with
  | [] => ret tt
  | o :: os' =>
      update_self (fun s => set_schedulers (schedulers s ++ [mk o]) s) ;;
      append_schedulers mk os'
  end.

(** Lines 42 to 100: [self.load()] and the training set-up. *)
Definition init_body (o : Opt) (train_opt : TrainOpt) : M World unit :=
  load ;;
  tr <- getfield is_train ;;
  if tr then
    model_train ;;
    let is_weighted := is_weighted (train o) in
    let loss_type := loss_type (train o) in
    lf <- lift_outcome (MatchingLoss loss_type is_weighted) ;;
    dev <- getfield device ;;
    update_self (set_loss_fn (loss_to lf dev)) ;;
    update_self (set_weight (weight_opt (train o))) ;;
    (* optimizers *)
    let wd_G := if truthy (weight_decay_G train_opt)
                then weight_decay_G train_opt else int_zero in
    m <- getfield model ;;
    optim_params <- collect_params (named_parameters (module m)) [] ;;
    ad <- lift_outcome
            (Adam_new optim_params (lr_G train_opt) wd_G (beta1 train_opt, beta2 train_opt)) ;;
    update_self (set_optimizer ad) ;;
    update_self (fun s => set_optimizers (optimizers s ++ [SelfOptimizer]) s) ;;
    (* schedulers *)
    (if String.eqb (lr_scheme train_opt) "MultiStepLR" then
       os <- getfield optimizers ;;
       append_schedulers
         (fun optimizer =>
            MultiStepLR_Restart optimizer (lr_steps train_opt) (restarts train_opt)
              (restart_weights train_opt) (lr_gamma train_opt) (clear_state train_opt))
         os
     else if String.eqb (lr_scheme train_opt) "CosineAnnealingLR_Restart" then
       os <- getfield optimizers ;;
       append_schedulers
         (fun optimizer =>
            CosineAnnealingLR_Restart optimizer (T_period train_opt) (eta_min train_opt)
              (restarts train_opt) (restart_weights train_opt))
         os
     else
       raise (NotImplementedError "MultiStepLR learning rate scheme is enough.")) ;;
    update_self (set_log_dict [])
  else
    ret tt.

(** Lines 34 to 39: the parallel wrapper around the network; a fresh
    module starts in training mode. *)
Definition wrap_model (o : Opt) (net : Net) : Model :=
  if dist o
  then {| wrapper := DistributedDataParallel [current_device];
          module := net; training := true |}
  else {| wrapper := DataParallel; module := net; training := true |}.

(** [DenoisingModel(opt)] *)
Definition init (o : Opt) : M Env DenoisingModel :=
  fun e =>
    let b := super_init o in
    let rk := if dist o then get_rank else (-1)%Z in
    let train_opt := train o in
    (* define network and load pretrained models *)
    let e := record_call EvDefineG e in
    match define_G o with
    | Raise x => (Raise x, e)
    | Ok net =>
        let m := wrap_model o (net_to net (base_device b)) in
        let self0 :=
          {| opt := o; device := base_device b; is_train := base_is_train b;
             rank := rk; model := m;
             optimizers := base_optimizers b; schedulers := base_schedulers b;
             loss_fn := None; weight := None; optimizer := None; log_dict := None;
             state := None; condition := None; state_0 := None; output := None |} in
        match init_body o train_opt {| self := self0; env := e |} with
        | (Ok _, w) => (Ok (self w), env w)
        | (Raise x, w) => (Raise x, env w)
        end
    end.

(** Running a method on an object in an environment. *)
Definition run {A} (m : M World A) (s : DenoisingModel) (e : Env) : outcome A * World :=
  m {| self := s; env := e |}.

End Orchestrator.

Arguments run {RT A} m s e.

(** ** The optimization step as the specification words it

    The five steps the specification lists, (a) to (e), and the update of
    the log, with no other effect; written from the specification's
    sentence, to be compared with [optimize_parameters]. *)

Definition optimize_parameters_as_described {RT : Runtime}
    (step : Value) (timesteps : Tensor) (sde : option SDE) : M World unit :=
  sd <- sde_attr sde "set_mu" ;;
  (* (a) the conditioning mean, from the stored condition *)
  c <- getattr condition "condition" ;;
  call_sde (EvSetMu c) (set_mu sd c) ;;
  dev <- getfield device ;;
  let timesteps := tensor_to timesteps dev in
  (* (b) forward noise and score estimate *)
  x <- getattr state "state" ;;
  ctx <- current_ctx ;;
  noise <- call_sde (EvNoiseFn x (squeeze timesteps)) (noise_fn sd ctx x (squeeze timesteps)) ;;
  score <- call_sde (EvGetScoreFromNoise noise timesteps)
                    (get_score_from_noise sd noise timesteps) ;;
  (* (c) expected reverse step and optimal reverse step *)
  expected <- call_sde (EvReverseSdeStepMean x score timesteps)
                       (reverse_sde_step_mean sd x score timesteps) ;;
  x0 <- getattr state_0 "state_0" ;;
  optimum <- call_sde (EvReverseOptimumStep x x0 timesteps)
                      (reverse_optimum_step sd x x0 timesteps) ;;
  (* (d) weighted matching loss *)
  wt <- getattr weight "weight" ;;
  lf <- getattr loss_fn "loss_fn" ;;
  emit (EvLossFn expected optimum) ;;
  let loss := value_mul wt (loss_call lf expected optimum) in
  (* (e) one backward pass and one optimizer update *)
  loss_backward loss ;;
  ad <- getattr optimizer "optimizer" ;;
  emit EvOptimizerStep ;;
  update_self (fun s =>
    let (ad', n') := adam_step ad (module (model s)) in
    set_optimizer ad' (set_model (set_module n' (model s)) s)) ;;
  (* the log *)
  ld <- getattr log_dict "log_dict" ;;
  update_self (set_log_dict (odict_set ld "loss" (item loss))).

(** ** A stand-in runtime

    A tensor is its batch, a list of integer items; the network is one
    weight and its gradient buffer; Adam counts its steps.  Hyperparameters
    are integers in thousandths; Adam refuses an empty parameter list, a
    negative learning rate or weight decay and a beta outside [0, 1), the
    loss module a loss type other than 1 and 2.  The stand-in SDE keeps
    the mean it was given and records nothing else. *)

Module Fake.

Definition net_weight (n : Z * Z) : Z := fst n.
Definition net_grad (n : Z * Z) : Z := snd n.

Definition diff (a b : list Z) : list Z :=
  map (fun p => Z.abs (fst p - snd p)) (combine a b).

Definition total (a : list Z) : Z := fold_right Z.add 0%Z a.

Definition valid_beta (b : Z) : bool := ((0 <=? b) && (b <? 1000))%Z.

Definition adam (params : list Z) (lr wd : Z) (betas : Z * Z) : outcome Z :=
  match params with
  | [] => Raise (ValueError "optimizer got an empty parameter list")
  | _ =>
      if (lr <? 0)%Z then Raise (ValueError "Invalid learning rate")
      else if negb (valid_beta (fst betas)) then
        Raise (ValueError "Invalid beta parameter at index 0")
      else if negb (valid_beta (snd betas)) then
        Raise (ValueError "Invalid beta parameter at index 1")
      else if (wd <? 0)%Z then Raise (ValueError "Invalid weight_decay value")
      else Ok 0%Z
  end.

Definition matching_loss (loss_type w : Z) : outcome bool :=
  if ((loss_type =? 1) || (loss_type =? 2))%Z then Ok (negb (Z.eqb w 0))
  else Raise (ValueError "invalid loss type").

#[export] Instance runtime : Runtime := {|
  Tensor := list Z;
  Device := string;
  Value := Z;
  Net := Z * Z;
  Param := Z;
  Adam := Z;
  LossFn := bool;
  SdeSt := option (list Z);
  tensor_to := fun t _ => t;
  squeeze := fun t => t;
  detach := fun t => t;
  getitem0 := fun t => match t with [] => None | x :: _ => Some [x] end;
  float := fun t => t;
  cpu := fun t => t;
  value_mul := fun v t => map (Z.mul v) t;
  item := fun t => total t;
  truthy := fun v => negb (Z.eqb v 0);
  int_zero := 0%Z;
  net_to := fun n _ => n;
  named_parameters := fun n => [("module.weight", net_weight n)];
  requires_grad := fun _ => true;
  MatchingLoss := matching_loss;
  loss_to := fun l _ => l;
  loss_call := fun _ a b => [total (diff a b)];
  backward := fun loss n => Ok (net_weight n, (net_grad n + total loss)%Z);
  Adam_new := adam;
  zero_grad := fun _ n => (net_weight n, 0%Z);
  adam_step := fun ad n => ((ad + 1)%Z, ((net_weight n - net_grad n)%Z, net_grad n));
  get_rank := 0%Z;
  current_device := 0%Z
|}.

(** The base class in training mode ([tr = true]) or inference mode. *)
Definition base (tr : bool) : BaseOps := {|
  super_init := fun _ =>
    {| base_device := "cpu"; base_is_train := tr;
       base_optimizers := []; base_schedulers := [] |};
  define_G := fun _ => Ok (1%Z, 0%Z);
  load_network := fun _ m _ => Ok m;
  save_network := fun _ _ _ => Ok tt
|}.

(** The mean is stored; the network adds its weight to the sample; the
    two samplers shift the mean they were given by one and by two. *)
Definition sampler (st : option (list Z)) (x : list Z) : list Z :=
  match st with Some mu => mu | None => x end.

Definition sde : SDE := {|
  set_mu := fun mu _ => (Ok tt, Some mu);
  noise_fn := fun ctx x _ st => (Ok (map (Z.add (net_weight (module (ctx_model ctx)))) x), st);
  get_score_from_noise := fun noise _ st => (Ok (map Z.opp noise), st);
  reverse_sde_step_mean := fun x score _ st => (Ok (map (fun p => (fst p + snd p)%Z) (combine x score)), st);
  reverse_optimum_step := fun _ x0 _ st => (Ok x0, st);
  reverse_sde := fun _ x _ st => (Ok (map (Z.add 1) (sampler st x)), st);
  reverse_ode := fun _ x _ st => (Ok (map (Z.add 2) (sampler st x)), st)
|}.

(** An SDE whose samplers raise. *)
Definition failing_sde : SDE := {|
  set_mu := set_mu sde;
  noise_fn := noise_fn sde;
  get_score_from_noise := get_score_from_noise sde;
  reverse_sde_step_mean := reverse_sde_step_mean sde;
  reverse_optimum_step := reverse_optimum_step sde;
  reverse_sde := fun _ _ _ st => (Raise (ExternalError "sampler diverged"), st);
  reverse_ode := fun _ _ _ st => (Raise (ExternalError "sampler diverged"), st)
|}.

Definition train_opt (scheme : string) : TrainOpt := {|
  is_weighted := 1%Z; loss_type := 1%Z; weight_opt := 2%Z; weight_decay_G := 0%Z;
  lr_G := 1%Z; beta1 := 900%Z; beta2 := 999%Z; lr_scheme := scheme;
  lr_steps := 0%Z; restarts := 0%Z; restart_weights := 0%Z; lr_gamma := 5%Z;
  clear_state := 0%Z; T_period := 0%Z; eta_min := 0%Z
|}.

Definition options (scheme : string) (pretrained : option string) : Opt := {|
  dist := false;
  train := train_opt scheme;
  path := {| pretrain_model_G := pretrained; strict_load := true |}
|}.

Definition env0 : Env := {| sde_st := None; grad_enabled := true; calls := [] |}.

(** An object as the constructor leaves it in training mode. *)
Definition trained : DenoisingModel := {|
  opt := options "MultiStepLR" None; device := "cpu"; is_train := true; rank := (-1)%Z;
  model := {| wrapper := DataParallel; module := (1%Z, 0%Z); training := true |};
  optimizers := [SelfOptimizer];
  schedulers := [MultiStepLR_Restart SelfOptimizer 0%Z 0%Z 0%Z 5%Z 0%Z];
  loss_fn := Some true; weight := Some 2%Z; optimizer := Some 0%Z; log_dict := Some [];
  state := None; condition := None; state_0 := None; output := None
|}.

Local Open Scope Z_scope.

(** The object after a step was fed with ground truth, and after one fed
    without. *)
Definition fed : DenoisingModel :=
  self (snd (run (feed_data [5; 6] [7; 8] (Some [9; 10])) trained env0)).

Definition fed_without_gt : DenoisingModel :=
  self (snd (run (feed_data [5; 6] [7; 8] None) trained env0)).

(** The object after one optimization step on [fed]: the gradient buffer
    holds the gradient of that step. *)
Definition stepped : DenoisingModel :=
  self (snd (run (optimize_parameters 1 [3] (Some sde)) fed env0)).

End Fake.

(** ** print_network

    [get_network_description] belongs to the base class and the class
    names and the ["{:,d}"] format to Python; they are taken as given. *)

Class Describe {RT : Runtime} : Type := {
  get_network_description : Model -> string * Z;
  net_class_name : Net -> string;
  format_thousands : Z -> string
}.

Definition wrapper_class_name {RT : Runtime} (w : Wrapper) : string :=
  match w with
  | DataParallel => "DataParallel"
  | DistributedDataParallel _ => "DistributedDataParallel"
  end.

(** [print_network(self)].  [self.model] is one of the two wrappers, so
    the [isinstance] test holds on both constructors. *)
Definition print_network {RT : Runtime} {D : Describe} : M World unit :=
  m <- getfield model ;;
  let (s, n) := get_network_description m in
  m <- getfield model ;;
  let net_struc_str :=
    match wrapper m with
    | DataParallel | DistributedDataParallel _ =>
        (wrapper_class_name (wrapper m) ++ " - " ++ net_class_name (module m))%string
    end in
  rk <- getfield rank ;;
  if (rk <=? 0)%Z then
    emit (EvLogInfo ("Network G structure: " ++ net_struc_str
                     ++ ", with parameters: " ++ format_thousands n)%string) ;;
    emit (EvLogInfo s)
  else
    ret tt.

(** ** Sequences of calls

    A caller drives the object by a sequence of method calls and may go
    on after one of them raised. *)

Inductive Call {RT : Runtime} : Type :=
| CallFeedData (st LQ : Tensor) (GT : option Tensor)
| CallOptimizeParameters (step : Value) (timesteps : Tensor) (sde : option SDE)
| CallTest (sde : option SDE) (perform_ode save_states : bool)
| CallGetCurrentLog
| CallGetCurrentVisuals (need_GT : bool)
| CallPrintNetwork
| CallLoad
| CallSave (iter_label : Value).

Definition discard {S A} (m : M S A) : M S unit :=
  fun s => match m s with
           | (Ok _, s') => (Ok tt, s')
           | (Raise x, s') => (Raise x, s')
           end.

Definition perform {RT : Runtime} {BO : BaseOps} {D : Describe} (c : Call) : M World unit :=
  match c with
  | CallFeedData st LQ GT => feed_data st LQ GT
  | CallOptimizeParameters step timesteps sde => optimize_parameters step timesteps sde
  | CallTest sde perform_ode save_states => test sde perform_ode save_states
  | CallGetCurrentLog => discard get_current_log
  | CallGetCurrentVisuals need_GT => discard (get_current_visuals need_GT)
  | CallPrintNetwork => print_network
  | CallLoad => load
  | CallSave iter_label => save iter_label
  end.

(** The world after the whole sequence, exceptions caught by the caller. *)
Fixpoint perform_all {RT : Runtime} {BO : BaseOps} {D : Describe}
    (cs : list Call) (w : World) : World :=
  match cs with
  | [] => w
  | c :: cs' => perform_all cs' (snd (perform c w))
  end.

Definition is_test_call {RT : Runtime} (c : Call) : bool :=
  match c with CallTest _ _ _ => true | _ => false end.

Definition is_load_call {RT : Runtime} (c : Call) : bool :=
  match c with CallLoad => true | _ => false end.

(** Every [test] of the sequence returned normally. *)
Fixpoint tests_returned {RT : Runtime} {BO : BaseOps} {D : Describe}
    (cs : list Call) (w : World) : bool :=
  match cs with
  | [] => true
  | c :: cs' =>
      (if is_test_call c then is_ok (fst (perform c w)) else true)
      && tests_returned cs' (snd (perform c w))
  end.

(** An attribute that was assigned is still assigned. *)
Definition still_set {A} (before after : option A) : bool :=
  match before, after with
  | Some _, None => false
  | _, _ => true
  end.

Definition attributes_kept {RT : Runtime} (s s' : DenoisingModel) : bool :=
  still_set (loss_fn s) (loss_fn s') && still_set (weight s) (weight s')
  && still_set (optimizer s) (optimizer s') && still_set (log_dict s) (log_dict s')
  && still_set (state s) (state s') && still_set (condition s) (condition s')
  && still_set (state_0 s) (state_0 s') && still_set (output s) (output s').

(** ** What the constructor's loops compute *)

Definition trainable {RT : Runtime} (kv : string * Param) : bool := requires_grad (snd kv).

Definition frozen_warning {RT : Runtime} (kv : string * Param) : Event :=
  EvLogWarning ("Params [" ++ fst kv ++ "] will not optimize.").

Definition frozen_warnings {RT : Runtime} (rk : Z) (ps : list (string * Param)) : list Event :=
  if (rk <=? 0)%Z
  then map frozen_warning (filter (fun kv => negb (trainable kv)) ps)
  else [].

(** The scheduler the constructor makes for one optimizer. *)
Definition scheduler_for {RT : Runtime} (t : TrainOpt) (optimizer : OptRef) : Scheduler :=
  if String.eqb (lr_scheme t) "MultiStepLR" then
    MultiStepLR_Restart optimizer (lr_steps t) (restarts t) (restart_weights t)
      (lr_gamma t) (clear_state t)
  else
    CosineAnnealingLR_Restart optimizer (T_period t) (eta_min t) (restarts t)
      (restart_weights t).

(** The stand-in description of a network: its weight as parameter
    count. *)
Module FakeDescription.

#[export] Instance describe : @Describe Fake.runtime := {|
  get_network_description :=
    fun m : @Model Fake.runtime => ("Net(weight)", Fake.net_weight (module m));
  net_class_name := fun _ => "ConditionalUNet";
  format_thousands := fun n => if (n <? 1000)%Z then "small" else "large"
|}.

(** A network with one trainable and two frozen parameters. *)
Definition partly_frozen : list (string * Z) :=
  [("module.head", 0%Z); ("module.body", 1%Z); ("module.tail", 0%Z)].

(** A base class whose checkpoint cannot be read. *)
Definition unreadable_checkpoint : @BaseOps Fake.runtime := {|
  super_init := @super_init _ (Fake.base true);
  define_G := @define_G _ (Fake.base true);
  load_network := fun _ _ _ => Raise (ExternalError "unreadable checkpoint");
  save_network := fun _ _ _ => Ok tt
|}.

(** An SDE that refuses the conditioning mean. *)
Definition refusing_sde : @SDE Fake.runtime := {|
  set_mu := fun _ st => (Raise (ExternalError "bad mean"), st);
  noise_fn := noise_fn Fake.sde;
  get_score_from_noise := get_score_from_noise Fake.sde;
  reverse_sde_step_mean := reverse_sde_step_mean Fake.sde;
  reverse_optimum_step := reverse_optimum_step Fake.sde;
  reverse_sde := reverse_sde Fake.sde;
  reverse_ode := reverse_ode Fake.sde
|}.

(** Options with a first beta out of range and an unknown scheme. *)
Definition bad_betas : @Opt Fake.runtime := {|
  dist := false;
  train := @Build_TrainOpt Fake.runtime 1%Z 1%Z 2%Z 0%Z 1%Z 9000%Z 999%Z "StepLR"
             0%Z 0%Z 0%Z 5%Z 0%Z 0%Z 0%Z;
  path := {| pretrain_model_G := None; strict_load := true |}
|}.

(** The environment the stand-in constructor leaves in training mode. *)
Definition built : @Env Fake.runtime :=
  @Build_Env Fake.runtime None true [EvDefineG; EvModelTrain].

End FakeDescription.

Definition supported_scheme (name : string) : bool :=
  String.eqb name "MultiStepLR" || String.eqb name "CosineAnnealingLR_Restart".

(** The parameters the constructor hands to Adam, and the two
    constructor calls that may raise. *)
Definition optim_params_of {RT : Runtime} (s1 : DenoisingModel) : list Param :=
  map snd (filter trainable (named_parameters (module (model s1)))).

Definition make_loss {RT : Runtime} (o : Opt) : outcome LossFn :=
  MatchingLoss (loss_type (train o)) (is_weighted (train o)).

Definition make_adam {RT : Runtime} (o : Opt) (s1 : DenoisingModel) : outcome Adam :=
  let t := train o in
  Adam_new (optim_params_of s1) (lr_G t)
    (if truthy (weight_decay_G t) then weight_decay_G t else int_zero)
    (beta1 t, beta2 t).

(** The object when the constructor reaches the choice of the scheduler
    (line 74), from the object [s1] that [self.load()] left and the loss
    module and optimizer that were built. *)
Definition before_schedulers {RT : Runtime} (o : Opt) (s1 : DenoisingModel)
    (lf : LossFn) (ad : Adam) : DenoisingModel :=
  set_optimizers (optimizers s1 ++ [SelfOptimizer])
    (set_optimizer ad
       (set_weight (weight_opt (train o))
          (set_loss_fn (loss_to lf (device s1))
             (set_model (set_training true (model s1)) s1)))).

(** The object at the end of the training set-up (line 100). *)
Definition after_setup {RT : Runtime} (o : Opt) (s1 : DenoisingModel)
    (lf : LossFn) (ad : Adam) : DenoisingModel :=
  set_log_dict []
    (set_schedulers
       (schedulers s1 ++ map (scheduler_for (train o)) (optimizers s1 ++ [SelfOptimizer]))
       (before_schedulers o s1 lf ad)).

(** The calls of the training set-up. *)
Definition setup_calls {RT : Runtime} (s1 : DenoisingModel) : list Event :=
  EvModelTrain :: frozen_warnings (rank s1) (named_parameters (module (model s1))).

(** The object the constructor has built when it calls [self.load()]. *)
Definition before_load {RT : Runtime} {BO : BaseOps} (o : Opt) (net : Net) : DenoisingModel :=
  let b := super_init o in
  {| opt := o; device := base_device b; is_train := base_is_train b;
     rank := if dist o then get_rank else (-1)%Z;
     model := wrap_model o (net_to net (base_device b));
     optimizers := base_optimizers b; schedulers := base_schedulers b;
     loss_fn := None; weight := None; optimizer := None; log_dict := None;
     state := None; condition := None; state_0 := None; output := None |}.

(** The model the constructor holds after [self.load()]. *)
Definition loaded_model {RT : Runtime} {BO : BaseOps} (o : Opt) (net : Net) : outcome Model :=
  match pretrain_model_G (path o) with
  | None => Ok (model (before_load o net))
  | Some p => load_network p (model (before_load o net)) (strict_load (path o))
  end.

(** The checkpoint, when one is configured, loads into the network [net]
    the constructor wrapped. *)
Definition checkpoint_loads {RT : Runtime} {BO : BaseOps} (o : Opt) (net : Net) : bool :=
  match pretrain_model_G (path o) with
  | None => true
  | Some p => is_ok (load_network p (model (before_load o net)) (strict_load (path o)))
  end.

(** A stored tensor whose batch has an item 0. *)
Definition has_first_item {RT : Runtime} (t : option Tensor) : bool :=
  match t with
  | Some t' => match getitem0 (detach t') with Some _ => true | None => false end
  | None => false
  end.

(** What [get_current_visuals] reads. *)
Definition visuals_ready {RT : Runtime} (need_GT : bool) (s : DenoisingModel) : bool :=
  has_first_item (condition s) && has_first_item (output s)
  && (if need_GT then has_first_item (state_0 s) else true).

(** Two objects that agree on what [test] reads. *)
Definition same_for_test {RT : Runtime} (s s' : DenoisingModel) : Prop :=
  model s = model s' /\ state s = state s' /\ condition s = condition s'.

(** What no method changes. *)
Definition settled {RT : Runtime} (s s' : DenoisingModel) (e e' : Env) : Prop :=
  attributes_kept s s' = true /\
  opt s' = opt s /\ device s' = device s /\ is_train s' = is_train s /\
  rank s' = rank s /\ optimizers s' = optimizers s /\ schedulers s' = schedulers s /\
  grad_enabled e' = grad_enabled e /\
  exists l, calls e' = calls e ++ l.

(** * Properties *)

(** Kinds of recorded calls. *)


Definition is_reverse_sde {RT : Runtime} (ev : Event) : bool :=
  match ev with EvReverseSde _ _ _ _ => true | _ => false end.

Definition is_reverse_ode {RT : Runtime} (ev : Event) : bool :=
  match ev with EvReverseOde _ _ _ _ => true | _ => false end.

Definition is_update_call {RT : Runtime} (ev : Event) : bool :=
  match ev with EvBackward _ | EvOptimizerStep => true | _ => false end.


(** Case analysis along a method body: every attribute read and every
    call of a collaborator either goes on or ends the run. *)
Ltac along_the_body :=
  repeat (simpl in *;
          match goal with
          | |- context [match ?x with _ => _ end] =>
              lazymatch x with
              | context [match _ with _ => _ end] => fail
              | _ => destruct x eqn:?
              end
          end).

(** The calls a run added, read off the recorded list. *)
Ltac added_calls :=
  unfold record_call, set_sde_st, set_grad_enabled; simpl;
  repeat rewrite <- app_assoc;
  first [ eexists; split; [reflexivity | reflexivity]
        | exists (@nil _); split; [now rewrite app_nil_r | reflexivity] ].

Ltac unfold_body :=
  unfold loss_backward;
  unfold sde_attr, call_sde, with_no_grad, model_eval, model_train, bind, ret, raise,
    emit, update_env, update_self, modify, getattr, getfield, gets, current_ctx,
    lift_outcome.

(** The first half of [optimize_parameters], up to the expected reverse
    step: what it leaves when every SDE call returns. *)
Definition after_expectation {RT : Runtime} (s : DenoisingModel) (e : Env) (ad : Adam)
    (c x ts noise score : Tensor) (st : SdeSt) : World :=
  {| self := set_model (set_module (zero_grad ad (module (model s))) (model s)) s;
     env := {| sde_st := st; grad_enabled := grad_enabled e;
               calls := calls e ++ [EvSetMu c; EvZeroGrad; EvNoiseFn x (squeeze ts);
                                    EvGetScoreFromNoise noise ts;
                                    EvReverseSdeStepMean x score ts] |} |}.

(** Several calls recorded at once. *)
Definition record_calls {RT : Runtime} (l : list Event) (e : Env) : Env :=
  {| sde_st := sde_st e; grad_enabled := grad_enabled e; calls := calls e ++ l |}.

Section Properties.

Context {RT : Runtime} {BO : BaseOps}.

Lemma odict_get_set_same {V} (d : odict V) k v :
  odict_get (odict_set d k v) k = Some v.
Proof.
  induction d as [|[k' v'] d IH]; simpl.
  - now rewrite String.eqb_refl.
  - destruct (String.eqb k' k) eqn:E; simpl.
    + now rewrite String.eqb_refl.
    + now rewrite E.
Qed.

Lemma odict_get_set_other {V} (d : odict V) k k' v :
  k' <> k -> odict_get (odict_set d k v) k' = odict_get d k'.
Proof.
  intros Hne. induction d as [|[k0 v0] d IH]; simpl.
  - destruct (String.eqb_spec k k'); congruence.
  - destruct (String.eqb_spec k0 k) as [->|Hk]; simpl.
    + destruct (String.eqb_spec k k'); congruence.
    + destruct (String.eqb_spec k0 k'); auto.
Qed.

(** ** feed_data *)

(** C1 (as amended): [feed_data] never fails, touches nothing outside the
    object, and stores [state] and [condition] moved to the device on
    every call; [state_0] is overwritten with the ground truth moved to
    the device when one is passed, and keeps its previous content when the
    call passes none.  No other field of the object changes, so one step
    is held at a time. *)
Theorem feed_data_overwrites (st LQ : Tensor) (GT : option Tensor)
    (s : DenoisingModel) (e : Env) :
  let r := run (feed_data st LQ GT) s e in
  fst r = Ok tt /\
  env (snd r) = e /\
  state (self (snd r)) = Some (tensor_to st (device s)) /\
  condition (self (snd r)) = Some (tensor_to LQ (device s)) /\
  state_0 (self (snd r)) =
    match GT with
    | Some gt => Some (tensor_to gt (device s))
    | None => state_0 s
    end /\
  output (self (snd r)) = output s /\
  model (self (snd r)) = model s /\
  optimizer (self (snd r)) = optimizer s /\
  log_dict (self (snd r)) = log_dict s /\
  loss_fn (self (snd r)) = loss_fn s /\
  weight (self (snd r)) = weight s /\
  device (self (snd r)) = device s /\
  opt (self (snd r)) = opt s /\
  is_train (self (snd r)) = is_train s /\
  rank (self (snd r)) = rank s /\
  optimizers (self (snd r)) = optimizers s /\
  schedulers (self (snd r)) = schedulers s.
Proof.
  destruct GT; cbn; repeat split; reflexivity.
Qed.

(** ** The [sde] argument *)

(** C9: with the [sde] argument left at its default, [optimize_parameters]
    and [test] raise on their first action, the lookup of [set_mu] on
    [None]: no call is made and nothing is changed. *)
Theorem sde_argument_required (step : Value) (timesteps : Tensor)
    (perform_ode save_states : bool) (s : DenoisingModel) (e : Env) :
  run (optimize_parameters step timesteps None) s e
    = (Raise (AttributeError "NoneType" "set_mu"), {| self := s; env := e |}) /\
  run (test None perform_ode save_states) s e
    = (Raise (AttributeError "NoneType" "set_mu"), {| self := s; env := e |}).
Proof.
  split; reflexivity.
Qed.

(** ** load *)

Lemma load_without_path (s : DenoisingModel) (e : Env) :
  pretrain_model_G (path (opt s)) = None ->
  run load s e = (Ok tt, {| self := s; env := e |}).
Proof.
  intros H. unfold run, load, bind, getfield, gets. simpl. now rewrite H.
Qed.

Lemma load_with_path (s : DenoisingModel) (e : Env) (p : string) :
  pretrain_model_G (path (opt s)) = Some p ->
  let strict := strict_load (path (opt s)) in
  let e' := record_call (EvLoadNetwork p strict)
              (record_call (EvLogInfo ("Loading model for G [" ++ p ++ "] ...")) e) in
  run load s e =
    match load_network p (model s) strict with
    | Ok m' => (Ok tt, {| self := set_model m' s; env := e' |})
    | Raise x => (Raise x, {| self := s; env := e' |})
    end.
Proof.
  intros H. unfold run, load, bind, getfield, gets. simpl. rewrite H. simpl.
  unfold lift_outcome. destruct (load_network _ _ _); reflexivity.
Qed.

(** C8: without a checkpoint path [load] returns normally, makes no call
    and leaves the object as it is; with a path [p] it calls
    [load_network] once, with [p], the model and the configured
    strictness flag, after logging the path, and its outcome is that of
    [load_network]. *)
Theorem load_skips_or_delegates (s : DenoisingModel) (e : Env) :
  match pretrain_model_G (path (opt s)) with
  | None => run load s e = (Ok tt, {| self := s; env := e |})
  | Some p =>
      let strict := strict_load (path (opt s)) in
      calls (env (snd (run load s e)))
        = calls e ++ [EvLogInfo ("Loading model for G [" ++ p ++ "] ...");
                      EvLoadNetwork p strict] /\
      match load_network p (model s) strict with
      | Ok m' => fst (run load s e) = Ok tt /\ self (snd (run load s e)) = set_model m' s
      | Raise x => fst (run load s e) = Raise x /\ self (snd (run load s e)) = s
      end
  end.
Proof.
  destruct (pretrain_model_G (path (opt s))) as [p|] eqn:H.
  - rewrite (load_with_path s e H). cbv zeta.
    destruct (load_network _ _ _); simpl; rewrite <- app_assoc; auto.
  - now apply load_without_path.
Qed.

(** ** optimize_parameters *)

(** C2 (as amended): once ground truth is fed, with gradient tracking
    on, an SDE whose calls return and a backward pass that succeeds,
    [optimize_parameters] (a) hands the stored condition to [set_mu],
    then clears the gradient buffers of the optimizer's parameters,
    (b) asks for the noise and the score at the timesteps, (c) asks for
    the expected reverse step and for the optimal one from the ground
    truth, (d) takes the weighted loss between the two, (e) runs one
    backward pass and one optimizer step, in this order.  It returns
    [None]; of the object it changes the network's parameter store and
    the optimizer state through the clearing and (e) and, besides,
    [log_dict], where ["loss"] becomes the scalar of the loss and the
    other keys stay; every other field, the wrapper and mode of the
    model and the gradient switch are as before. *)
Theorem optimize_parameters_step (step : Value) (timesteps : Tensor) (sd : SDE)
    (s : DenoisingModel) (e : Env)
    (c x x0 : Tensor) (ad : Adam) (wt : Value) (lf : LossFn) (ld : odict Value)
    (noise score expectation optimum : Tensor) (st1 st2 st3 st4 st5 : SdeSt)
    (n' : Net) :
  let ts := tensor_to timesteps (device s) in
  let cleared := set_module (zero_grad ad (module (model s))) (model s) in
  let ctx := {| ctx_model := cleared; ctx_grad := grad_enabled e |} in
  let loss := value_mul wt (loss_call lf expectation optimum) in
  let stepped := adam_step ad n' in
  condition s = Some c -> state s = Some x -> state_0 s = Some x0 ->
  optimizer s = Some ad -> weight s = Some wt -> loss_fn s = Some lf ->
  log_dict s = Some ld ->
  grad_enabled e = true ->
  set_mu sd c (sde_st e) = (Ok tt, st1) ->
  noise_fn sd ctx x (squeeze ts) st1 = (Ok noise, st2) ->
  get_score_from_noise sd noise ts st2 = (Ok score, st3) ->
  reverse_sde_step_mean sd x score ts st3 = (Ok expectation, st4) ->
  reverse_optimum_step sd x x0 ts st4 = (Ok optimum, st5) ->
  backward loss (module cleared) = Ok n' ->
  let r := run (optimize_parameters step timesteps (Some sd)) s e in
  fst r = Ok tt /\
  calls (env (snd r)) =
    calls e ++ [EvSetMu c; EvZeroGrad;
                EvNoiseFn x (squeeze ts); EvGetScoreFromNoise noise ts;
                EvReverseSdeStepMean x score ts; EvReverseOptimumStep x x0 ts;
                EvLossFn expectation optimum;
                EvBackward loss; EvOptimizerStep] /\
  sde_st (env (snd r)) = st5 /\
  grad_enabled (env (snd r)) = grad_enabled e /\
  model (self (snd r)) = set_module (snd stepped) (model s) /\
  optimizer (self (snd r)) = Some (fst stepped) /\
  log_dict (self (snd r)) = Some (odict_set ld "loss" (item loss)) /\
  odict_get (odict_set ld "loss" (item loss)) "loss" = Some (item loss) /\
  (forall k, k <> "loss" ->
     odict_get (odict_set ld "loss" (item loss)) k = odict_get ld k) /\
  state (self (snd r)) = state s /\
  condition (self (snd r)) = condition s /\
  state_0 (self (snd r)) = state_0 s /\
  output (self (snd r)) = output s /\
  loss_fn (self (snd r)) = loss_fn s /\
  weight (self (snd r)) = weight s /\
  opt (self (snd r)) = opt s /\
  device (self (snd r)) = device s /\
  is_train (self (snd r)) = is_train s /\
  rank (self (snd r)) = rank s /\
  optimizers (self (snd r)) = optimizers s /\
  schedulers (self (snd r)) = schedulers s.
Proof.
  intros ts cleared ctx loss stepped Hc Hx Hx0 Had Hwt Hlf Hld Hg H1 H2 H3 H4 H5 Hb r.
  assert (Hr : r = (Ok tt,
            {| self := set_log_dict (odict_set ld "loss" (item loss))
                         (set_optimizer (fst stepped)
                            (set_model (set_module (snd stepped) (model s)) s));
               env := {| sde_st := st5; grad_enabled := grad_enabled e;
                         calls := calls e ++ [EvSetMu c; EvZeroGrad;
                            EvNoiseFn x (squeeze ts); EvGetScoreFromNoise noise ts;
                            EvReverseSdeStepMean x score ts; EvReverseOptimumStep x x0 ts;
                            EvLossFn expectation optimum;
                            EvBackward loss; EvOptimizerStep] |} |})).
  { subst r ts cleared ctx loss stepped.
    destruct s as [o dv tr rk m os ss lf' wt' ad' ld' x' c' x0' out]; simpl in *.
    subst lf' wt' ad' ld' x' c' x0'.
    unfold run, optimize_parameters. unfold_body.
    simpl. rewrite H1. simpl. rewrite H2. simpl. rewrite H3. simpl.
    rewrite H4. simpl. rewrite H5. simpl. rewrite Hg. rewrite Hb. simpl.
    destruct (adam_step ad n') as [ad' n'']. simpl.
    unfold record_call, set_sde_st, set_log_dict, set_optimizer, set_model. simpl.
    repeat rewrite <- app_assoc. simpl. rewrite Hg. reflexivity. }
  rewrite Hr. simpl.
  repeat split; auto using odict_get_set_same, odict_get_set_other.
Qed.

(** C3: when [state_0] was never assigned, [optimize_parameters] never
    returns normally, runs neither the backward pass nor the optimizer
    step and leaves the optimizer state and the log as they were.  Nothing
    checks for the ground truth beforehand: with an SDE whose calls
    return, [set_mu], [zero_grad], [noise_fn], [get_score_from_noise] and
    [reverse_sde_step_mean] have all been made when the read of
    [self.state_0] raises. *)
Theorem optimize_parameters_without_ground_truth (step : Value) (timesteps : Tensor)
    (sde : option SDE) (s : DenoisingModel) (e : Env) :
  state_0 s = None ->
  let r := run (optimize_parameters step timesteps sde) s e in
  is_ok (fst r) = false /\
  (exists l, calls (env (snd r)) = calls e ++ l /\ existsb is_update_call l = false) /\
  optimizer (self (snd r)) = optimizer s /\
  log_dict (self (snd r)) = log_dict s /\
  forall (sd : SDE) (c x : Tensor) (ad : Adam) (noise score expectation : Tensor)
         (st1 st2 st3 st4 : SdeSt),
    let ts := tensor_to timesteps (device s) in
    let cleared := set_module (zero_grad ad (module (model s))) (model s) in
    let ctx := {| ctx_model := cleared; ctx_grad := grad_enabled e |} in
    sde = Some sd -> condition s = Some c -> state s = Some x -> optimizer s = Some ad ->
    set_mu sd c (sde_st e) = (Ok tt, st1) ->
    noise_fn sd ctx x (squeeze ts) st1 = (Ok noise, st2) ->
    get_score_from_noise sd noise ts st2 = (Ok score, st3) ->
    reverse_sde_step_mean sd x score ts st3 = (Ok expectation, st4) ->
    r = (Raise (AttributeError "DenoisingModel" "state_0"),
         after_expectation s e ad c x ts noise score st4).
Proof.
  intros H0 r. subst r.
  destruct s as [o dv tr rk m os ss lf wt ad' ld x' c' x0' out]; simpl in H0; subst x0'.
  split; [|split; [|split; [|split]]].
  - unfold run, optimize_parameters. unfold_body. along_the_body; reflexivity.
  - unfold run, optimize_parameters. unfold_body. along_the_body; added_calls.
  - unfold run, optimize_parameters. unfold_body. along_the_body; reflexivity.
  - unfold run, optimize_parameters. unfold_body. along_the_body; reflexivity.
  - intros sd c x ad noise score expectation st1 st2 st3 st4 ts cleared ctx
      Hs Hc Hx Had H1 H2 H3 H4.
    subst ts cleared ctx. simpl in *. subst sde c' x' ad'.
    unfold run, optimize_parameters, after_expectation. unfold_body.
    simpl. rewrite H1. simpl. rewrite H2. simpl. rewrite H3. simpl. rewrite H4. simpl.
    unfold record_call, set_sde_st. simpl. repeat rewrite <- app_assoc. reflexivity.
Qed.

(** ** test *)

(** C5: [test] calls one sampler and never the other: with [perform_ode]
    no call of [reverse_sde] is made, without it no call of [reverse_ode].
    When the data was fed and [set_mu] and the chosen sampler return, the
    calls are [set_mu], [model.eval()], the chosen sampler on the stored
    state (gradients off, evaluation mode) and [model.train()], and the
    sampler's result is stored as [output]. *)
Theorem test_selects_sampler (sde : option SDE) (perform_ode save_states : bool)
    (s : DenoisingModel) (e : Env) :
  let r := run (test sde perform_ode save_states) s e in
  (exists l, calls (env (snd r)) = calls e ++ l /\
     existsb (if perform_ode then is_reverse_sde else is_reverse_ode) l = false) /\
  forall (sd : SDE) (c x out : Tensor) (st1 st2 : SdeSt),
    let ctx := {| ctx_model := set_training false (model s); ctx_grad := false |} in
    sde = Some sd -> condition s = Some c -> state s = Some x ->
    set_mu sd c (sde_st e) = (Ok tt, st1) ->
    (if perform_ode then reverse_ode sd ctx x save_states st1
     else reverse_sde sd ctx x save_states st1) = (Ok out, st2) ->
    fst r = Ok tt /\
    calls (env (snd r)) =
      calls e ++ [EvSetMu c; EvModelEval;
                  if perform_ode then EvReverseOde x save_states false false
                  else EvReverseSde x save_states false false;
                  EvModelTrain] /\
    output (self (snd r)) = Some out /\
    sde_st (env (snd r)) = st2.
Proof.
  intros r. subst r.
  destruct s as [o dv tr rk m os ss lf wt ad ld x' c' x0 out']. split.
  - unfold run, test. unfold_body.
    destruct perform_ode; along_the_body; added_calls.
  - intros sd c x out st1 st2 ctx Hs Hc Hx H1 H2. subst ctx. simpl in *.
    subst sde c' x'. unfold run, test. unfold_body.
    destruct perform_ode; simpl; rewrite H1; simpl; rewrite H2; simpl;
      repeat rewrite <- app_assoc; auto.
Qed.

(** C6 (as amended): whenever [test] returns normally, with either
    sampler, the model is in training mode afterwards; and [test] does
    return normally when the data was fed and [set_mu] and the chosen
    sampler return. *)
Theorem test_restores_train_mode (sde : option SDE) (perform_ode save_states : bool)
    (s : DenoisingModel) (e : Env) :
  let r := run (test sde perform_ode save_states) s e in
  (fst r = Ok tt -> training (model (self (snd r))) = true) /\
  forall (sd : SDE) (c x out : Tensor) (st1 st2 : SdeSt),
    let ctx := {| ctx_model := set_training false (model s); ctx_grad := false |} in
    sde = Some sd -> condition s = Some c -> state s = Some x ->
    set_mu sd c (sde_st e) = (Ok tt, st1) ->
    (if perform_ode then reverse_ode sd ctx x save_states st1
     else reverse_sde sd ctx x save_states st1) = (Ok out, st2) ->
    fst r = Ok tt.
Proof.
  intros r. subst r.
  destruct s as [o dv tr rk m os ss lf wt ad ld x' c' x0 out']. split.
  - unfold run, test. unfold_body.
    destruct perform_ode; along_the_body; intros; try discriminate; reflexivity.
  - intros sd c x out st1 st2 ctx Hs Hc Hx H1 H2. subst ctx. simpl in *.
    subst sde c' x'. unfold run, test. unfold_body.
    destruct perform_ode; simpl; rewrite H1; simpl; rewrite H2; reflexivity.
Qed.


(** ** get_current_visuals *)

(** C7: after [feed_data] and a [test] that returned, with non-empty
    batches, [get_current_visuals(need_GT=False)] returns the dict with
    the keys "Input" and "Output" and no other, and with [need_GT=True]
    and a ground truth stored it returns these and "GT".  Each value is
    item 0 of the detached batch, cast to float and moved to the host:
    "Input" of the condition fed, "Output" of the sampler's result, "GT"
    of the ground truth.  The object is not changed. *)
Theorem visuals_after_test (st LQ : Tensor) (GT : option Tensor) (sde : option SDE)
    (perform_ode save_states : bool) (s : DenoisingModel) (e : Env) :
  let r := (feed_data st LQ GT ;; test sde perform_ode save_states)
             {| self := s; env := e |} in
  fst r = Ok tt ->
  exists out,
    output (self (snd r)) = Some out /\
    condition (self (snd r)) = Some (tensor_to LQ (device s)) /\
    (forall gt, GT = Some gt -> state_0 (self (snd r)) = Some (tensor_to gt (device s))) /\
    forall i o,
      getitem0 (detach (tensor_to LQ (device s))) = Some i ->
      getitem0 (detach out) = Some o ->
      get_current_visuals false (snd r)
        = (Ok [("Input", cpu (float i)); ("Output", cpu (float o))], snd r) /\
      forall g g0,
        state_0 (self (snd r)) = Some g ->
        getitem0 (detach g) = Some g0 ->
        get_current_visuals true (snd r)
          = (Ok [("Input", cpu (float i)); ("Output", cpu (float o));
                 ("GT", cpu (float g0))], snd r).
Proof.
  intros r. subst r.
  destruct s as [o dv tr rk m os ss lf wt ad ld x' c' x0 out'].
  unfold feed_data, test. unfold_body.
  destruct GT as [gt|], perform_ode; along_the_body; intros Hok; try discriminate;
    (eexists; split; [reflexivity | split; [reflexivity | split;
       [ intros gt' Hgt; try discriminate; try (injection Hgt as <-); reflexivity | ]]]);
    intros i o' Hi Ho; unfold get_current_visuals, first_item; unfold_body; simpl;
    rewrite Hi; simpl; rewrite Ho; simpl; (split; [reflexivity |]);
    intros g g0 Hg Hg0; simpl in Hg |- *; try (injection Hg as <-); try rewrite Hg;
    simpl; rewrite Hg0; reflexivity.
Qed.

End Properties.

(** * Concrete runs on the stand-in runtime *)

Section Runs.

Import Fake.
Local Open Scope Z_scope.

(** A step fed without ground truth, after a step fed with [[9; 10]] as
    ground truth: [state] and [condition] are the new ones, [state_0] is
    still the tensor of the step before. *)
Lemma feed_data_keeps_previous_ground_truth :
  let before := fed in
  let after := self (snd (run (feed_data [1; 2] [3; 4] None) before env0)) in
  state_0 before = Some [9; 10] /\
  state after = Some [1; 2] /\
  condition after = Some [3; 4] /\
  state_0 after = state_0 before.
Proof. repeat split. Qed.

(** A second step on the same data.  The code clears the gradient of the
    first step, 42, before the backward pass adds 126: the weight goes
    from -41 to -167.  The five steps alone would add onto the 42 and
    move the weight to -209; the call of [zero_grad] is in the code's
    record and not in theirs. *)
Lemma optimize_parameters_clears_gradients :
  let r := run (optimize_parameters 1 [3] (Some sde)) stepped env0 in
  let d := run (optimize_parameters_as_described 1 [3] (Some sde)) stepped env0 in
  module (model stepped) = (-41, 42) /\
  fst r = Ok tt /\ fst d = Ok tt /\
  module (model (self (snd r))) = (-167, 126) /\
  module (model (self (snd d))) = (-209, 168) /\
  existsb (fun ev => match ev with EvZeroGrad => true | _ => false end)
    (calls (env (snd r))) = true /\
  existsb (fun ev => match ev with EvZeroGrad => true | _ => false end)
    (calls (env (snd d))) = false /\
  snd r <> snd d.
Proof. repeat split. discriminate. Qed.

Lemma optimize_parameters_step_witness :
  let r := run (optimize_parameters 1 [3] (Some sde)) fed env0 in
  fst r = Ok tt /\
  calls (env (snd r)) =
    [EvSetMu [7; 8]; EvZeroGrad; EvNoiseFn [5; 6] [3];
     EvGetScoreFromNoise [6; 7] [3]; EvReverseSdeStepMean [5; 6] [-6; -7] [3];
     EvReverseOptimumStep [5; 6] [9; 10] [3]; EvLossFn [-1; -1] [9; 10];
     EvBackward [42]; EvOptimizerStep] /\
  log_dict (self (snd r)) = Some [("loss", 42)].
Proof.
  destruct (@optimize_parameters_step runtime 1 [3] sde fed env0
              [7; 8] [5; 6] [9; 10] 0 2 true [] [6; 7] [-6; -7] [-1; -1] [9; 10]
              (Some [7; 8]) (Some [7; 8]) (Some [7; 8]) (Some [7; 8]) (Some [7; 8])
              (1, 42)
              eq_refl eq_refl eq_refl eq_refl eq_refl eq_refl eq_refl eq_refl
              eq_refl eq_refl eq_refl eq_refl eq_refl eq_refl)
    as (H1 & H2 & _ & _ & _ & _ & H3 & _).
  exact (conj H1 (conj H2 H3)).
Defined.

Lemma optimize_parameters_without_ground_truth_witness :
  let r := run (optimize_parameters 1 [3] (Some sde)) fed_without_gt env0 in
  state_0 fed_without_gt = None /\
  r = (Raise (AttributeError "DenoisingModel" "state_0"),
       after_expectation fed_without_gt env0 0 [7; 8] [5; 6] [3] [6; 7] [-6; -7]
         (Some [7; 8])).
Proof.
  split; [reflexivity|].
  destruct (@optimize_parameters_without_ground_truth runtime 1 [3] (Some sde)
              fed_without_gt env0 eq_refl) as (_ & _ & _ & _ & H).
  exact (H sde [7; 8] [5; 6] 0 [6; 7] [-6; -7] [-1; -1]
           (Some [7; 8]) (Some [7; 8]) (Some [7; 8]) (Some [7; 8])
           eq_refl eq_refl eq_refl eq_refl eq_refl eq_refl eq_refl eq_refl).
Defined.

Lemma test_selects_sampler_witness :
  let r := run (test (Some sde) true false) fed env0 in
  fst r = Ok tt /\
  calls (env (snd r)) =
    [EvSetMu [7; 8]; EvModelEval; EvReverseOde [5; 6] false false false; EvModelTrain] /\
  output (self (snd r)) = Some [9; 10] /\
  sde_st (env (snd r)) = Some [7; 8].
Proof.
  exact (proj2 (@test_selects_sampler runtime (Some sde) true false fed env0)
           sde [7; 8] [5; 6] [9; 10] (Some [7; 8]) (Some [7; 8])
           eq_refl eq_refl eq_refl eq_refl eq_refl).
Defined.

(** A sampler that raises: [test] passes the exception on and the model,
    in training mode before the call, is left in evaluation mode. *)
Lemma test_leaves_eval_mode_when_sampler_raises :
  let r := run (test (Some failing_sde) false false) fed env0 in
  training (model fed) = true /\
  fst r = Raise (ExternalError "sampler diverged") /\
  training (model (self (snd r))) = false.
Proof. repeat split. Qed.

Lemma test_restores_train_mode_witness :
  let r := run (test (Some sde) false false) fed env0 in
  fst r = Ok tt /\ training (model (self (snd r))) = true.
Proof.
  pose (H := @test_restores_train_mode runtime (Some sde) false false fed env0).
  assert (Hok : fst (run (test (Some sde) false false) fed env0) = Ok tt).
  { exact (proj2 H sde [7; 8] [5; 6] [8; 9] (Some [7; 8]) (Some [7; 8])
             eq_refl eq_refl eq_refl eq_refl eq_refl). }
  exact (conj Hok (proj1 H Hok)).
Defined.



Lemma visuals_after_test_witness :
  let r := (feed_data [5; 6] [7; 8] (Some [9; 10]) ;; test (Some sde) true false)%py
             {| self := trained; env := env0 |} in
  fst r = Ok tt /\
  get_current_visuals false (snd r) = (Ok [("Input", [7]); ("Output", [9])], snd r) /\
  get_current_visuals true (snd r)
    = (Ok [("Input", [7]); ("Output", [9]); ("GT", [9])], snd r).
Proof.
  split; [reflexivity|].
  destruct (@visuals_after_test runtime [5; 6] [7; 8] (Some [9; 10]) (Some sde)
              true false trained env0 eq_refl) as (out & Hout & _ & _ & H).
  injection Hout as <-.
  destruct (H [7] [9] eq_refl eq_refl) as (H1 & H2).
  exact (conj H1 (H2 [9; 10] [9] eq_refl eq_refl)).
Defined.

End Runs.

(** * Further properties of the class *)

Section Constructor.

Context {RT : Runtime} {BO : BaseOps}.

(** ** The loops of the constructor *)

Lemma world_eta (w : World) :
  {| self := self w; env := record_calls [] (env w) |} = w.
Proof.
  destruct w as [sf [st g cl]]. unfold record_calls. simpl. now rewrite app_nil_r.
Qed.

Lemma record_calls_cons (ev : Event) (l : list Event) (e : Env) :
  record_calls l (record_call ev e) = record_calls (ev :: l) e.
Proof.
  unfold record_calls, record_call. simpl. now rewrite <- app_assoc.
Qed.

Lemma collect_params_run (ps : list (string * Param)) :
  forall (acc : list Param) (w : World),
    collect_params ps acc w
    = (Ok (acc ++ map snd (filter trainable ps)),
       {| self := self w;
          env := record_calls (frozen_warnings (rank (self w)) ps) (env w) |}).
Proof.
  induction ps as [|[k v] ps IH]; intros acc w.
  - simpl. unfold ret, frozen_warnings. rewrite app_nil_r.
    destruct (rank (self w) <=? 0)%Z; simpl; now rewrite world_eta.
  - cbn [collect_params].
    replace (filter trainable ((k, v) :: ps))
      with (if requires_grad v then (k, v) :: filter trainable ps else filter trainable ps)
      by reflexivity.
    replace (frozen_warnings (rank (self w)) ((k, v) :: ps))
      with (if requires_grad v then frozen_warnings (rank (self w)) ps
            else if (rank (self w) <=? 0)%Z
                 then frozen_warning (k, v) :: frozen_warnings (rank (self w)) ps
                 else frozen_warnings (rank (self w)) ps).
    2:{ unfold frozen_warnings, trainable. simpl.
        destruct (requires_grad v), (rank (self w) <=? 0)%Z; reflexivity. }
    destruct (requires_grad v).
    + rewrite IH. simpl. now rewrite <- app_assoc.
    + unfold bind, getfield, gets, emit, update_env, modify, ret.
      cbn [fst snd self env].
      destruct (rank (self w) <=? 0)%Z eqn:Hrk.
      * rewrite IH. cbn [self env]. rewrite record_calls_cons.
        unfold frozen_warnings at 1. rewrite Hrk. unfold frozen_warnings. rewrite Hrk.
        reflexivity.
      * rewrite IH. reflexivity.
Qed.

Lemma set_schedulers_twice (l1 l2 : list Scheduler) (s : DenoisingModel) :
  set_schedulers l2 (set_schedulers l1 s) = set_schedulers l2 s.
Proof. reflexivity. Qed.

Lemma append_schedulers_run (mk : OptRef -> Scheduler) (os : list OptRef) :
  forall (w : World),
    append_schedulers mk os w
    = (Ok tt, {| self := set_schedulers (schedulers (self w) ++ map mk os) (self w);
                 env := env w |}).
Proof.
  induction os as [|o os IH]; intros w.
  - simpl. unfold ret. rewrite app_nil_r. now destruct w as [[] ?].
  - simpl. unfold bind, update_self, modify. simpl. rewrite IH. simpl.
    rewrite <- app_assoc. reflexivity.
Qed.

(** The loop over the named parameters hands on, in their order, the
    parameters that require gradients, behind those already collected; it
    logs one warning per other parameter, in order, when the rank is at
    most 0 and none otherwise; it never raises and leaves the object and
    the rest of the environment alone. *)
Theorem collect_params_selects (ps : list (string * Param)) (acc : list Param) (w : World) :
  let r := collect_params ps acc w in
  fst r = Ok (acc ++ map snd (filter trainable ps)) /\
  self (snd r) = self w /\
  calls (env (snd r)) =
    calls (env w) ++
      (if (rank (self w) <=? 0)%Z
       then map frozen_warning (filter (fun kv => negb (trainable kv)) ps)
       else []) /\
  sde_st (env (snd r)) = sde_st (env w) /\
  grad_enabled (env (snd r)) = grad_enabled (env w).
Proof.
  cbv zeta. rewrite collect_params_run. repeat split.
Qed.

(** The scheduler loop appends one scheduler per optimizer of the list,
    in the list's order, behind the schedulers already there, and
    changes nothing else. *)
Theorem append_schedulers_one_each (mk : OptRef -> Scheduler) (os : list OptRef) (w : World) :
  let r := append_schedulers mk os w in
  fst r = Ok tt /\
  schedulers (self (snd r)) = schedulers (self w) ++ map mk os /\
  length (schedulers (self (snd r))) = length (schedulers (self w)) + length os /\
  set_schedulers (schedulers (self w)) (self (snd r)) = self w /\
  env (snd r) = env w.
Proof.
  cbv zeta. rewrite append_schedulers_run. cbn [fst snd self env].
  repeat split.
  - cbn. now rewrite length_app, length_map.
  - now destruct (self w).
Qed.

(** ** The constructor, case by case *)

Lemma load_run (w : World) :
  load w =
    match pretrain_model_G (path (opt (self w))) with
    | None => (Ok tt, w)
    | Some p =>
        let strict := strict_load (path (opt (self w))) in
        let e' := record_calls [EvLogInfo ("Loading model for G [" ++ p ++ "] ...");
                                EvLoadNetwork p strict] (env w) in
        match load_network p (model (self w)) strict with
        | Ok m' => (Ok tt, {| self := set_model m' (self w); env := e' |})
        | Raise x => (Raise x, {| self := self w; env := e' |})
        end
    end.
Proof.
  destruct w as [s e].
  destruct (pretrain_model_G (path (opt s))) as [p|] eqn:Hp; simpl; rewrite Hp.
  - pose proof (load_with_path s e Hp) as H. unfold run in H. rewrite H. cbv zeta.
    cbn [self env].
    destruct (load_network p (model s) (strict_load (path (opt s))));
      unfold record_calls, record_call; simpl; rewrite <- app_assoc; reflexivity.
  - exact (load_without_path s e Hp).
Qed.

(** The constructor, outcome by outcome. *)
Lemma init_cases (o : Opt) (e : Env) :
  init o e =
    match define_G o with
    | Raise x => (Raise x, record_call EvDefineG e)
    | Ok net =>
        match load {| self := before_load o net; env := record_call EvDefineG e |} with
        | (Raise x, w1) => (Raise x, env w1)
        | (Ok _, w1) =>
            if is_train (self w1) then
              match make_loss o with
              | Raise x => (Raise x, record_calls [EvModelTrain] (env w1))
              | Ok lf =>
                  let e1 := record_calls (setup_calls (self w1)) (env w1) in
                  match make_adam o (self w1) with
                  | Raise x => (Raise x, e1)
                  | Ok ad =>
                      if supported_scheme (lr_scheme (train o))
                      then (Ok (after_setup o (self w1) lf ad), e1)
                      else (Raise (NotImplementedError
                                     "MultiStepLR learning rate scheme is enough."), e1)
                  end
              end
            else (Ok (self w1), env w1)
        end
    end.
Proof.
  unfold init. destruct (define_G o) as [net|x]; [|reflexivity].
  unfold init_body. unfold bind at 1.
  destruct (load _) as [[[]|x] w1]; [|reflexivity].
  unfold bind at 1. unfold getfield at 1, gets. cbn [fst snd].
  destruct (is_train (self w1)) eqn:Htr; [|reflexivity].
  unfold model_train. unfold_body. cbn [fst snd self env].
  unfold make_loss, make_adam, optim_params_of.
  destruct (MatchingLoss (loss_type (train o)) (is_weighted (train o))) as [lf|x].
  2:{ cbn [fst snd env]. unfold record_calls, record_call. reflexivity. }
  cbn [fst snd self env].
  rewrite collect_params_run.
  cbn [fst snd self env app model module rank
       set_model set_loss_fn set_weight set_training].
  rewrite record_calls_cons. fold (setup_calls (self w1)).
  match goal with |- context [Adam_new ?a ?b ?c ?d] =>
    destruct (Adam_new a b c d) as [ad|x] end; [|reflexivity].
  cbn [fst snd self env].
  unfold supported_scheme, after_setup, before_schedulers, scheduler_for.
  destruct (String.eqb (lr_scheme (train o)) "MultiStepLR") eqn:H1.
  - cbn [orb]. rewrite append_schedulers_run. reflexivity.
  - cbn [orb].
    destruct (String.eqb (lr_scheme (train o)) "CosineAnnealingLR_Restart") eqn:H2.
    + rewrite append_schedulers_run. reflexivity.
    + reflexivity.
Qed.

(** What [self.load()] leaves of the object the constructor built. *)
Lemma load_in_constructor (o : Opt) (net : Net) (e : Env) :
  load {| self := before_load o net; env := e |} =
    match pretrain_model_G (path o) with
    | None => (Ok tt, {| self := before_load o net; env := e |})
    | Some p =>
        let e' := record_calls [EvLogInfo ("Loading model for G [" ++ p ++ "] ...");
                                EvLoadNetwork p (strict_load (path o))] e in
        match loaded_model o net with
        | Ok m' => (Ok tt, {| self := set_model m' (before_load o net); env := e' |})
        | Raise x => (Raise x, {| self := before_load o net; env := e' |})
        end
    end.
Proof.
  rewrite load_run. unfold loaded_model. cbn [self env].
  change (opt (before_load o net)) with o.
  destruct (pretrain_model_G (path o)); reflexivity.
Qed.

(** The model after [self.load()] in the world it leaves. *)
Lemma load_in_constructor_ok (o : Opt) (net : Net) (e : Env) (w1 : World) (u : unit) :
  load {| self := before_load o net; env := e |} = (Ok u, w1) ->
  exists m', loaded_model o net = Ok m' /\ self w1 = set_model m' (before_load o net) /\
             checkpoint_loads o net = true /\
             exists l, env w1 = record_calls l e /\
                       forallb (fun ev => match ev with
                                          | EvLogInfo _ | EvLoadNetwork _ _ => true
                                          | _ => false
                                          end) l = true.
Proof.
  rewrite load_in_constructor. unfold loaded_model, checkpoint_loads.
  destruct (pretrain_model_G (path o)) as [p|].
  - cbv zeta. destruct (load_network _ _ _) as [m'|x]; [|discriminate].
    intros H. injection H as _ <-. exists m'. repeat split.
    eexists. split; reflexivity.
  - intros H. injection H as _ <-. exists (model (before_load o net)). repeat split.
    exists []. split; [|reflexivity]. cbn [env]. unfold record_calls.
    rewrite app_nil_r. now destruct e.
Qed.

(** The object of a construction that returned. *)
Lemma init_returns_shape (o : Opt) (e : Env) (obj : DenoisingModel) (e' : Env) :
  init o e = (Ok obj, e') ->
  exists net m',
    define_G o = Ok net /\ loaded_model o net = Ok m' /\
    let s1 := set_model m' (before_load o net) in
    if base_is_train (super_init o)
    then exists lf ad,
           make_loss o = Ok lf /\ make_adam o s1 = Ok ad /\
           supported_scheme (lr_scheme (train o)) = true /\
           obj = after_setup o s1 lf ad
    else obj = s1.
Proof.
  intros H. rewrite init_cases in H.
  destruct (define_G o) as [net|x]; [|discriminate].
  destruct (load _) as [[u|x] w1] eqn:Hload; [|discriminate].
  destruct (load_in_constructor_ok _ _ _ Hload) as (m' & Hm & Hs & _).
  exists net, m'. split; [reflexivity|]. split; [exact Hm|]. cbv zeta.
  rewrite Hs in H. change (is_train (set_model m' (before_load o net)))
    with (base_is_train (super_init o)) in H.
  destruct (base_is_train (super_init o)).
  - destruct (make_loss o) as [lf|x]; [|discriminate].
    cbv zeta in H. destruct (make_adam o _) as [ad|x]; [|discriminate].
    destruct (supported_scheme _); [|discriminate].
    injection H as <- _. exists lf, ad. repeat split.
  - injection H as <- _. reflexivity.
Qed.


(** In training mode a construction that returns has taken one of the
    two schemes and has built the loss module and the Adam optimizer
    without error; it leaves an object in training mode with that loss
    module moved to the device, the weight, the optimizer, built over
    exactly the parameters that require gradients (weight decay 0 when
    the option is falsy), and an empty log; the optimizer is added to the
    list of the base class and one scheduler per optimizer of that list
    is appended.  No step data is set. *)
Theorem init_training_object (o : Opt) (e : Env) (obj : DenoisingModel) (e' : Env) :
  base_is_train (super_init o) = true ->
  init o e = (Ok obj, e') ->
  let b := super_init o in
  let t := train o in
  supported_scheme (lr_scheme t) = true /\
  (exists lf, MatchingLoss (loss_type t) (is_weighted t) = Ok lf /\
              loss_fn obj = Some (loss_to lf (base_device b))) /\
  (exists ad,
     Adam_new (map snd (filter trainable (named_parameters (module (model obj)))))
       (lr_G t)
       (if truthy (weight_decay_G t) then weight_decay_G t else int_zero)
       (beta1 t, beta2 t) = Ok ad /\
     optimizer obj = Some ad) /\
  opt obj = o /\ device obj = base_device b /\ is_train obj = true /\
  rank obj = (if dist o then get_rank else (-1)%Z) /\
  training (model obj) = true /\
  weight obj = Some (weight_opt t) /\
  log_dict obj = Some [] /\
  optimizers obj = base_optimizers b ++ [SelfOptimizer] /\
  schedulers obj = base_schedulers b ++ map (scheduler_for t) (optimizers obj) /\
  state obj = None /\ condition obj = None /\ state_0 obj = None /\ output obj = None.
Proof.
  intros Htr H.
  destruct (init_returns_shape _ _ H) as (net & m' & _ & _ & Hshape).
  cbv zeta in Hshape. rewrite Htr in Hshape.
  destruct Hshape as (lf & ad & Hlf & Had & Hsup & ->).
  cbv zeta. split; [exact Hsup|].
  split; [exists lf; split; [exact Hlf | reflexivity]|].
  split; [exists ad; split; [exact Had | reflexivity]|].
  repeat split. exact Htr.
Qed.

(** In inference mode the constructor sets up no loss, weight, optimizer,
    log or scheduler and makes no call beyond [define_G] and the loading
    of the checkpoint; it returns whenever the network can be defined
    and the checkpoint loaded, whatever the scheme name is. *)
Theorem init_inference_object (o : Opt) (e : Env) :
  base_is_train (super_init o) = false ->
  (forall obj e', init o e = (Ok obj, e') ->
     let b := super_init o in
     is_train obj = false /\
     loss_fn obj = None /\ weight obj = None /\ optimizer obj = None /\ log_dict obj = None /\
     optimizers obj = base_optimizers b /\ schedulers obj = base_schedulers b /\
     state obj = None /\ condition obj = None /\ state_0 obj = None /\ output obj = None /\
     exists l, calls e' = calls e ++ EvDefineG :: l /\
               forallb (fun ev => match ev with
                                  | EvLogInfo _ | EvLoadNetwork _ _ => true
                                  | _ => false
                                  end) l = true) /\
  (forall net, define_G o = Ok net -> checkpoint_loads o net = true ->
     is_ok (fst (init o e)) = true).
Proof.
  intros Htr. split.
  - intros obj e' H. rewrite init_cases in H.
    destruct (define_G o) as [net|x]; [|discriminate].
    destruct (load _) as [[u|x] w1] eqn:Hload; [|discriminate].
    destruct (load_in_constructor_ok _ _ _ Hload) as (m' & _ & Hs & _ & l & He & Hl).
    rewrite Hs in H.
    change (is_train (set_model m' (before_load o net)))
      with (base_is_train (super_init o)) in H.
    rewrite Htr in H. injection H as <- <-. rewrite He. cbv zeta.
    repeat split; try exact Htr.
    exists l. split; [|exact Hl].
    unfold record_calls, record_call. simpl. now rewrite <- app_assoc.
  - intros net Hnet Hck. rewrite init_cases, Hnet. rewrite load_in_constructor.
    unfold checkpoint_loads in Hck. unfold loaded_model.
    destruct (pretrain_model_G (path o)) as [p|].
    + cbv zeta. destruct (load_network _ _ _); [|discriminate].
      cbn [self is_train set_model before_load]. now rewrite Htr.
    + cbn [self is_train before_load]. now rewrite Htr.
Qed.

(** A failure of [define_G] or of [load_network] is the constructor's
    failure: the exception is passed on, no later line has run (after a
    failed [define_G] nothing is loaded, after a failed load the network
    is not put in training mode and no parameter is examined). *)
Theorem init_collaborator_failure (o : Opt) (e : Env) :
  (forall x, define_G o = Raise x -> init o e = (Raise x, record_call EvDefineG e)) /\
  (forall net p x,
     define_G o = Ok net ->
     pretrain_model_G (path o) = Some p ->
     load_network p (model (before_load o net)) (strict_load (path o)) = Raise x ->
     init o e = (Raise x,
                 record_calls [EvDefineG;
                               EvLogInfo ("Loading model for G [" ++ p ++ "] ...");
                               EvLoadNetwork p (strict_load (path o))] e)).
Proof.
  split.
  - intros x Hx. rewrite init_cases, Hx. reflexivity.
  - intros net p x Hnet Hp Hx. rewrite init_cases, Hnet. rewrite load_in_constructor.
    unfold loaded_model. rewrite Hp. cbv zeta. rewrite Hx.
    cbn [env]. rewrite record_calls_cons. reflexivity.
Qed.

End Constructor.

Section Methods.

Context {RT : Runtime}.

(** ** Failures of the SDE *)

(** When [set_mu] raises, [optimize_parameters] and [test] pass the
    exception on and the object is as before: the gradients are not
    cleared and the model is not put in evaluation mode. *)
Theorem set_mu_failure (sd : SDE) (s : DenoisingModel) (e : Env)
    (c : Tensor) (x : exn) (st1 : SdeSt)
    (step : Value) (timesteps : Tensor) (perform_ode save_states : bool) :
  condition s = Some c ->
  set_mu sd c (sde_st e) = (Raise x, st1) ->
  let w' := {| self := s; env := set_sde_st st1 (record_call (EvSetMu c) e) |} in
  run (optimize_parameters step timesteps (Some sd)) s e = (Raise x, w') /\
  run (test (Some sd) perform_ode save_states) s e = (Raise x, w').
Proof.
  intros Hc H1 w'. subst w'.
  destruct s as [o dv tr rk m os ss lf wt ad ld x' c' x0' out]; simpl in Hc; subst c'.
  split.
  - unfold run, optimize_parameters. unfold_body. simpl. rewrite H1. reflexivity.
  - unfold run, test. unfold_body. simpl. rewrite H1. reflexivity.
Qed.

(** When the chosen sampler raises, [test] passes the exception on;
    [output] keeps what it held, the model is left in evaluation mode
    ([model.train()] is not reached) and gradient tracking is back to
    what it was. *)
Theorem test_sampler_failure (sd : SDE) (perform_ode save_states : bool)
    (s : DenoisingModel) (e : Env) (c x : Tensor) (ex : exn) (st1 st2 : SdeSt) :
  let ctx := {| ctx_model := set_training false (model s); ctx_grad := false |} in
  condition s = Some c -> state s = Some x ->
  set_mu sd c (sde_st e) = (Ok tt, st1) ->
  (if perform_ode then reverse_ode sd ctx x save_states st1
   else reverse_sde sd ctx x save_states st1) = (Raise ex, st2) ->
  run (test (Some sd) perform_ode save_states) s e
  = (Raise ex,
     {| self := set_model (set_training false (model s)) s;
        env := {| sde_st := st2; grad_enabled := grad_enabled e;
                  calls := calls e ++
                    [EvSetMu c; EvModelEval;
                     if perform_ode then EvReverseOde x save_states false false
                     else EvReverseSde x save_states false false] |} |}).
Proof.
  intros ctx Hc Hx H1 H2. subst ctx.
  destruct s as [o dv tr rk m os ss lf wt ad ld x' c' x0' out]; simpl in *; subst c' x'.
  unfold run, test. unfold_body.
  destruct perform_ode; simpl; rewrite H1; simpl; rewrite H2; simpl;
    unfold record_call, set_sde_st, set_grad_enabled; simpl;
    repeat rewrite <- app_assoc; reflexivity.
Qed.

(** ** What [test] reads *)

(** [test] reads the model, [state] and [condition] only: on two objects
    that agree on these it has the same outcome, leaves the same model
    and the same environment, and on a normal return the same output.
    Ground truth, optimizer, loss and log play no part in inference. *)
Theorem test_reads_model_state_condition (sde : option SDE) (perform_ode save_states : bool)
    (s s' : DenoisingModel) (e : Env) :
  same_for_test s s' ->
  let r := run (test sde perform_ode save_states) s e in
  let r' := run (test sde perform_ode save_states) s' e in
  fst r = fst r' /\
  env (snd r) = env (snd r') /\
  model (self (snd r)) = model (self (snd r')) /\
  (fst r = Ok tt -> output (self (snd r)) = output (self (snd r'))).
Proof.
  intros (Hm & Hx & Hc) r r'. subst r r'.
  destruct s as [o dv tr rk m os ss lf wt ad ld x c x0 out].
  destruct s' as [o' dv' tr' rk' m' os' ss' lf' wt' ad' ld' x' c' x0' out'].
  simpl in Hm, Hx, Hc. subst m' x' c'.
  unfold run, test. unfold_body.
  destruct perform_ode; along_the_body; repeat split; intros; try discriminate; reflexivity.
Qed.

(** ** optimize_parameters *)

(** Whatever its outcome, [optimize_parameters] leaves the step inputs,
    the output, the loss module, the weight, the configuration and the
    model's wrapper and mode as they were, does not touch the gradient
    switch, and calls no sampler and neither [eval] nor [train]. *)
Theorem optimize_parameters_frame (step : Value) (timesteps : Tensor) (sde : option SDE)
    (s : DenoisingModel) (e : Env) :
  let r := run (optimize_parameters step timesteps sde) s e in
  state (self (snd r)) = state s /\
  condition (self (snd r)) = condition s /\
  state_0 (self (snd r)) = state_0 s /\
  output (self (snd r)) = output s /\
  loss_fn (self (snd r)) = loss_fn s /\
  weight (self (snd r)) = weight s /\
  opt (self (snd r)) = opt s /\
  device (self (snd r)) = device s /\
  optimizers (self (snd r)) = optimizers s /\
  schedulers (self (snd r)) = schedulers s /\
  wrapper (model (self (snd r))) = wrapper (model s) /\
  training (model (self (snd r))) = training (model s) /\
  grad_enabled (env (snd r)) = grad_enabled e /\
  exists l, calls (env (snd r)) = calls e ++ l /\
    existsb (fun ev => match ev with
                       | EvReverseSde _ _ _ _ | EvReverseOde _ _ _ _
                       | EvModelEval | EvModelTrain => true
                       | _ => false
                       end) l = false.
Proof.
  intros r. subst r.
  destruct s as [o dv tr rk [wr nt tg] os ss lf wt ad ld x c x0 out].
  destruct e as [st0 g cl].
  unfold run, optimize_parameters. unfold_body.
  repeat match goal with |- _ /\ _ => split end;
    try (along_the_body; reflexivity).
  along_the_body; added_calls.
Qed.


Lemma nine_calls {A} (c : list A) (a1 a2 a3 a4 a5 a6 a7 b1 b2 : A) :
  ((((((((c ++ [a1]) ++ [a2]) ++ [a3]) ++ [a4]) ++ [a5]) ++ [a6]) ++ [a7]) ++ [b1]) ++ [b2]
  = c ++ [a1; a2; a3; a4; a5; a6; a7] ++ [b1; b2].
Proof. repeat rewrite <- app_assoc. reflexivity. Qed.

Lemma optimize_parameters_returned (step : Value) (timesteps : Tensor)
    (sde : option SDE) (s : DenoisingModel) (e : Env) :
  let r := run (optimize_parameters step timesteps sde) s e in
  fst r = Ok tt ->
  exists ld loss l,
    log_dict s = Some ld /\
    calls (env (snd r)) = calls e ++ l ++ [EvBackward loss; EvOptimizerStep] /\
    existsb is_update_call l = false /\
    log_dict (self (snd r)) = Some (odict_set ld "loss" (item loss)) /\
    get_current_log (snd r) = (Ok (odict_set ld "loss" (item loss)), snd r) /\
    odict_get (odict_set ld "loss" (item loss)) "loss" = Some (item loss).
Proof.
  intros r. subst r.
  destruct s as [o dv tr rk [wr nt tg] os ss lf wt ad ld x c x0 out].
  unfold run, optimize_parameters, get_current_log. unfold_body.
  along_the_body; intros Hok; try discriminate.
  do 3 eexists. split; [reflexivity|]. split.
  - unfold record_call, set_sde_st. simpl. apply nine_calls.
  - split; [reflexivity|]. split; [reflexivity|]. split; [reflexivity|].
    apply odict_get_set_same.
Qed.

(** A call of [optimize_parameters] that returns has ended with the
    backward pass of a loss and the optimizer step, the only such calls
    it made, and has written the scalar of that loss under ["loss"] of
    the log the object had; [get_current_log] then returns that log
    without touching anything. *)
Theorem optimize_parameters_logs_loss (step : Value) (timesteps : Tensor)
    (sde : option SDE) (s : DenoisingModel) (e : Env) :
  let r := run (optimize_parameters step timesteps sde) s e in
  fst r = Ok tt ->
  exists ld loss l,
    log_dict s = Some ld /\
    calls (env (snd r)) = calls e ++ l ++ [EvBackward loss; EvOptimizerStep] /\
    existsb is_update_call l = false /\
    log_dict (self (snd r)) = Some (odict_set ld "loss" (item loss)) /\
    get_current_log (snd r) = (Ok (odict_set ld "loss" (item loss)), snd r) /\
    odict_get (odict_set ld "loss" (item loss)) "loss" = Some (item loss).
Proof. exact (optimize_parameters_returned step timesteps sde s e). Qed.

Lemma odict_set_twice {V} (d : odict V) (k : string) (v1 v2 : V) :
  odict_set (odict_set d k v1) k v2 = odict_set d k v2.
Proof.
  induction d as [|[k' v'] d IH]; simpl.
  - now rewrite String.eqb_refl.
  - destruct (String.eqb k' k) eqn:E; simpl.
    + now rewrite String.eqb_refl.
    + now rewrite E, IH.
Qed.

Lemma odict_set_keys {V} (d : odict V) (k : string) (v : V) :
  map fst (odict_set d k v)
  = if existsb (fun k' => String.eqb k' k) (map fst d) then map fst d else map fst d ++ [k].
Proof.
  induction d as [|[k' v'] d IH]; simpl; [reflexivity|].
  destruct (String.eqb_spec k' k) as [->|Hne]; simpl; [reflexivity|].
  rewrite IH. now destruct (existsb _ _).
Qed.

(** Two steps in a row that both return leave the log the object had with
    one entry for the loss, the scalar of the loss the second step sent
    backward: the first loss is overwritten in place, the keys are those
    after the first step. *)
Theorem second_step_overwrites_loss (step1 step2 : Value) (ts1 ts2 : Tensor)
    (sde1 sde2 : option SDE) (s : DenoisingModel) (e : Env) :
  let r1 := run (optimize_parameters step1 ts1 sde1) s e in
  let r2 := optimize_parameters step2 ts2 sde2 (snd r1) in
  fst r1 = Ok tt -> fst r2 = Ok tt ->
  exists ld ld1 loss2 l2,
    log_dict s = Some ld /\
    log_dict (self (snd r1)) = Some ld1 /\
    calls (env (snd r2))
      = calls (env (snd r1)) ++ l2 ++ [EvBackward loss2; EvOptimizerStep] /\
    existsb is_update_call l2 = false /\
    log_dict (self (snd r2)) = Some (odict_set ld "loss" (item loss2)) /\
    map fst (odict_set ld "loss" (item loss2)) = map fst ld1.
Proof.
  intros r1 r2 H1 H2.
  destruct (optimize_parameters_returned step1 ts1 sde1 s e H1)
    as (ld & loss1 & l1 & Hld & _ & _ & Hld1 & _).
  fold r1 in Hld1.
  assert (Hw : snd r1 = {| self := self (snd r1); env := env (snd r1) |})
    by now destruct (snd r1).
  subst r2. rewrite Hw in H2 |- *.
  destruct (optimize_parameters_returned step2 ts2 sde2 (self (snd r1)) (env (snd r1)) H2)
    as (ld1 & loss2 & l2 & Hld1' & Hcalls & Hl2 & Hld2 & _).
  unfold run in Hcalls, Hld2.
  rewrite Hld1 in Hld1'. injection Hld1' as <-.
  exists ld, (odict_set ld "loss" (item loss1)), loss2, l2.
  rewrite odict_set_twice in Hld2.
  repeat split; auto.
  rewrite !odict_set_keys. now destruct (existsb _ _).
Qed.

(** ** feed_data *)

(** Feeding twice is feeding the second step, with the ground truth of
    the first when the second has none. *)
Theorem feed_data_twice (st1 LQ1 st2 LQ2 : Tensor) (GT1 GT2 : option Tensor)
    (s : DenoisingModel) (e : Env) :
  run (feed_data st1 LQ1 GT1 ;; feed_data st2 LQ2 GT2) s e
  = run (feed_data st2 LQ2 (match GT2 with Some _ => GT2 | None => GT1 end)) s e.
Proof.
  destruct GT1, GT2; reflexivity.
Qed.

(** ** get_current_visuals *)

(** [get_current_visuals] changes nothing, and it returns exactly when
    the condition and the output are stored with a non-empty batch and,
    with [need_GT], so is the ground truth. *)
Theorem get_current_visuals_returns_iff (need_GT : bool) (w : World) :
  snd (get_current_visuals need_GT w) = w /\
  is_ok (fst (get_current_visuals need_GT w)) = visuals_ready need_GT (self w).
Proof.
  destruct w as [[o dv tr rk m os ss lf wt ad ld x c x0 out] e].
  unfold get_current_visuals, first_item, visuals_ready, has_first_item. unfold_body.
  destruct need_GT; along_the_body; split; reflexivity.
Qed.

(** The exception of [get_current_visuals] is that of the first thing
    missing, in the order condition, output, ground truth: with the
    default [need_GT=True] and no ground truth fed it is the
    [AttributeError] on [state_0], before [test] has run the one on
    [output], and an empty condition batch gives an [IndexError] before
    the output is looked at. *)
Theorem get_current_visuals_errors (w : World) (c ci : Tensor) :
  condition (self w) = Some c ->
  (getitem0 (detach c) = None ->
   forall need_GT,
     fst (get_current_visuals need_GT w) = Raise (IndexError "index 0 is out of bounds")) /\
  (getitem0 (detach c) = Some ci -> output (self w) = None ->
   forall need_GT,
     fst (get_current_visuals need_GT w) = Raise (AttributeError "DenoisingModel" "output")) /\
  (getitem0 (detach c) = Some ci -> state_0 (self w) = None ->
   has_first_item (output (self w)) = true ->
   fst (get_current_visuals true w) = Raise (AttributeError "DenoisingModel" "state_0")).
Proof.
  intros Hc.
  destruct w as [[o dv tr rk m os ss lf wt ad ld x c' x0 out] e]. simpl in Hc. subst c'.
  unfold get_current_visuals, first_item, has_first_item. unfold_body. simpl.
  repeat split.
  - intros -> need_GT. reflexivity.
  - intros -> -> need_GT. reflexivity.
  - intros -> -> Hout. destruct out as [t|]; [|discriminate].
    simpl. destruct (getitem0 (detach t)); [reflexivity|discriminate].
Qed.

End Methods.

Section Lifecycle.

Context {RT : Runtime} {BO : BaseOps} {D : Describe}.

(** ** Right after construction *)

Lemma without_condition (s : DenoisingModel) (e : Env) (sd : SDE)
    (step : Value) (timesteps : Tensor) (perform_ode save_states need_GT : bool) :
  condition s = None ->
  let missing := Raise (AttributeError "DenoisingModel" "condition") in
  run (test (Some sd) perform_ode save_states) s e
    = (missing, {| self := s; env := e |}) /\
  run (optimize_parameters step timesteps (Some sd)) s e
    = (missing, {| self := s; env := e |}) /\
  run (get_current_visuals need_GT) s e
    = (Raise (AttributeError "DenoisingModel" "condition"), {| self := s; env := e |}).
Proof.
  intros Hc.
  destruct s as [o dv tr rk m os ss lf wt ad ld x c x0 out]. simpl in Hc. subst c.
  repeat split.
Qed.

Lemma without_optimizer (s : DenoisingModel) (e : Env) (sd : SDE) (c : Tensor)
    (st1 : SdeSt) (step : Value) (timesteps : Tensor) :
  condition s = Some c -> optimizer s = None -> log_dict s = None ->
  set_mu sd c (sde_st e) = (Ok tt, st1) ->
  optimize_parameters step timesteps (Some sd) {| self := s; env := e |}
    = (Raise (AttributeError "DenoisingModel" "optimizer"),
       {| self := s; env := set_sde_st st1 (record_call (EvSetMu c) e) |}) /\
  get_current_log {| self := s; env := e |}
    = (Raise (AttributeError "DenoisingModel" "log_dict"), {| self := s; env := e |}).
Proof.
  intros Hc Ho Hl H1.
  destruct s as [o dv tr rk m os ss lf wt ad ld x c' x0 out]. simpl in Hc, Ho, Hl.
  subst c' ad ld.
  unfold optimize_parameters, get_current_log. unfold_body. simpl. rewrite H1.
  split; reflexivity.
Qed.

(** An object the constructor returned holds no step data: until
    [feed_data] is called, [test], [optimize_parameters] (with an SDE)
    and [get_current_visuals] raise the [AttributeError] on [condition],
    before any call of the SDE and without changing anything. *)
Theorem fresh_object_needs_data (o : Opt) (e : Env) (obj : DenoisingModel) (e' : Env)
    (sd : SDE) (step : Value) (timesteps : Tensor)
    (perform_ode save_states need_GT : bool) :
  init o e = (Ok obj, e') ->
  let missing := Raise (AttributeError "DenoisingModel" "condition") in
  run (test (Some sd) perform_ode save_states) obj e'
    = (missing, {| self := obj; env := e' |}) /\
  run (optimize_parameters step timesteps (Some sd)) obj e'
    = (missing, {| self := obj; env := e' |}) /\
  run (get_current_visuals need_GT) obj e'
    = (Raise (AttributeError "DenoisingModel" "condition"), {| self := obj; env := e' |}).
Proof.
  intros H.
  apply without_condition.
  destruct (init_returns_shape _ _ H) as (net & m' & _ & _ & Hshape).
  cbv zeta in Hshape.
  destruct (base_is_train (super_init o)).
  - destruct Hshape as (lf & ad & _ & _ & _ & ->). reflexivity.
  - subst obj. reflexivity.
Qed.

(** An object built in inference mode cannot be trained: after any
    [feed_data], [optimize_parameters] with an SDE whose [set_mu] returns
    raises the [AttributeError] on [optimizer], with [set_mu] called and
    nothing else, and [get_current_log] raises the one on [log_dict]. *)
Theorem inference_object_cannot_train (o : Opt) (e : Env) (obj : DenoisingModel) (e' : Env)
    (st LQ : Tensor) (GT : option Tensor) (sd : SDE) (st1 : SdeSt)
    (step : Value) (timesteps : Tensor) :
  base_is_train (super_init o) = false ->
  init o e = (Ok obj, e') ->
  let w := snd (run (feed_data st LQ GT) obj e') in
  let c := tensor_to LQ (device obj) in
  set_mu sd c (sde_st e') = (Ok tt, st1) ->
  optimize_parameters step timesteps (Some sd) w
    = (Raise (AttributeError "DenoisingModel" "optimizer"),
       {| self := self w; env := set_sde_st st1 (record_call (EvSetMu c) e') |}) /\
  get_current_log w = (Raise (AttributeError "DenoisingModel" "log_dict"), w).
Proof.
  intros Htr H w c H1.
  assert (Hw : w = {| self := self w; env := e' |}) by (subst w; now destruct GT).
  assert (Hcond : condition (self w) = Some c) by (subst w c; now destruct GT).
  assert (Hopt : optimizer (self w) = None /\ log_dict (self w) = None).
  { destruct (init_returns_shape _ _ H) as (net & m' & _ & _ & Hobj).
    cbv zeta in Hobj. rewrite Htr in Hobj. subst w. rewrite Hobj. now destruct GT. }
  destruct Hopt as [Hopt Hlog].
  pose proof (without_optimizer (self w) e' sd step timesteps Hcond Hopt Hlog H1) as P.
  rewrite <- Hw in P. exact P.
Qed.

(** ** print_network *)

(** [print_network] never raises and changes nothing; it logs its two
    lines, the structure named by the wrapper and the wrapped network,
    when the rank is at most 0 and nothing otherwise. *)
Theorem print_network_logs_on_rank_0 (w : World) :
  let r := print_network w in
  let m := model (self w) in
  fst r = Ok tt /\
  self (snd r) = self w /\
  sde_st (env (snd r)) = sde_st (env w) /\
  grad_enabled (env (snd r)) = grad_enabled (env w) /\
  calls (env (snd r)) =
    calls (env w) ++
      (if (rank (self w) <=? 0)%Z
       then [EvLogInfo ("Network G structure: "
                        ++ (wrapper_class_name (wrapper m) ++ " - " ++ net_class_name (module m))
                        ++ ", with parameters: "
                        ++ format_thousands (snd (get_network_description m)))%string;
             EvLogInfo (fst (get_network_description m))]
       else []).
Proof.
  destruct w as [s e]. unfold print_network. unfold_body. cbn [self env fst snd].
  destruct (get_network_description (model s)) as [d n] eqn:Hd. cbn [self env fst snd].
  destruct (rank s <=? 0)%Z; cbn [fst snd self env].
  - repeat split. unfold record_call. cbn [calls env snd]. rewrite <- app_assoc.
    destruct (wrapper (model s)); reflexivity.
  - repeat split. now rewrite app_nil_r.
Qed.

(** ** Any sequence of calls *)

Ltac settle_goal :=
  first
    [ reflexivity
    | match goal with |- still_set ?a _ = true => destruct a; reflexivity end
    | unfold record_calls, record_call, set_sde_st, set_grad_enabled; simpl;
      repeat rewrite <- app_assoc;
      first [ eexists; reflexivity | exists (@nil _); now rewrite app_nil_r ] ].

Ltac settle :=
  unfold settled, attributes_kept; simpl;
  repeat rewrite andb_true_iff; repeat split; settle_goal.

Lemma still_set_refl {A} (a : option A) : still_set a a = true.
Proof. now destruct a. Qed.

Lemma still_set_trans {A} (a b c : option A) :
  still_set a b = true -> still_set b c = true -> still_set a c = true.
Proof. destruct a, b, c; simpl; congruence. Qed.

Lemma settled_refl (s : DenoisingModel) (e : Env) : settled s s e e.
Proof.
  unfold settled, attributes_kept. rewrite !still_set_refl. repeat split.
  exists []. now rewrite app_nil_r.
Qed.

Lemma settled_trans (s1 s2 s3 : DenoisingModel) (e1 e2 e3 : Env) :
  settled s1 s2 e1 e2 -> settled s2 s3 e2 e3 -> settled s1 s3 e1 e3.
Proof.
  unfold settled, attributes_kept.
  intros (Ha & Ho & Hd & Ht & Hr & Hos & Hss & Hg & l & Hl)
         (Ha' & Ho' & Hd' & Ht' & Hr' & Hos' & Hss' & Hg' & l' & Hl').
  repeat rewrite andb_true_iff in Ha, Ha'.
  destruct Ha as (((((((A1 & A2) & A3) & A4) & A5) & A6) & A7) & A8).
  destruct Ha' as (((((((B1 & B2) & B3) & B4) & B5) & B6) & B7) & B8).
  repeat split; try congruence.
  - rewrite (@still_set_trans _ _ _ _ A1 B1), (@still_set_trans _ _ _ _ A2 B2),
      (@still_set_trans _ _ _ _ A3 B3), (@still_set_trans _ _ _ _ A4 B4),
      (@still_set_trans _ _ _ _ A5 B5), (@still_set_trans _ _ _ _ A6 B6),
      (@still_set_trans _ _ _ _ A7 B7), (@still_set_trans _ _ _ _ A8 B8). reflexivity.
  - exists (l ++ l'). rewrite Hl', Hl. now rewrite app_assoc.
Qed.

Lemma perform_settled (c : Call) (w : World) :
  settled (self w) (self (snd (perform c w))) (env w) (env (snd (perform c w))).
Proof.
  destruct w as [[o dv tr rk [wr nt tg] os ss lf wt ad ld x cd x0 out] [st0 g cl]].
  destruct c; unfold perform.
  - destruct GT; settle.
  - unfold optimize_parameters. unfold_body. along_the_body; settle.
  - unfold test. unfold_body. destruct perform_ode; along_the_body; settle.
  - unfold discard, get_current_log. unfold_body. along_the_body; settle.
  - unfold discard, get_current_visuals, first_item. unfold_body.
    destruct need_GT; along_the_body; settle.
  - unfold print_network. unfold_body. cbn [self env fst snd].
    destruct (get_network_description _) as [d n]. cbn [self env fst snd rank].
    destruct (rk <=? 0)%Z; settle.
  - rewrite load_run. cbn [self env opt].
    destruct (pretrain_model_G (path o)); [|apply settled_refl].
    cbv zeta. destruct (load_network _ _ _); settle.
  - unfold save. unfold_body. along_the_body; settle.
Qed.

(** Over any sequence of calls of the methods, whatever each of them
    returned or raised: an attribute that was assigned stays assigned,
    the configuration, the device, the rank and the lists of optimizers
    and schedulers are those of the constructor, gradient tracking is
    what it was, and the record of calls only grows. *)
Theorem perform_all_settled (cs : list Call) (w : World) :
  let w' := perform_all cs w in
  attributes_kept (self w) (self w') = true /\
  opt (self w') = opt (self w) /\
  device (self w') = device (self w) /\
  is_train (self w') = is_train (self w) /\
  rank (self w') = rank (self w) /\
  optimizers (self w') = optimizers (self w) /\
  schedulers (self w') = schedulers (self w) /\
  grad_enabled (env w') = grad_enabled (env w) /\
  exists l, calls (env w') = calls (env w) ++ l.
Proof.
  cbv zeta. revert w. induction cs as [|c cs IH]; intros w.
  - apply settled_refl.
  - simpl. exact (settled_trans (perform_settled c w) (IH (snd (perform c w)))).
Qed.

Lemma perform_training (c : Call) (w : World) :
  is_load_call c = false ->
  let r := perform c w in
  if is_test_call c
  then is_ok (fst r) = true -> training (model (self (snd r))) = true
  else training (model (self (snd r))) = training (model (self w)).
Proof.
  intros Hc. cbv zeta.
  destruct w as [[o dv tr rk [wr nt tg] os ss lf wt ad ld x cd x0 out] e].
  destruct c; try discriminate; unfold perform; cbn [is_test_call].
  - destruct GT; reflexivity.
  - unfold optimize_parameters. unfold_body. along_the_body; reflexivity.
  - unfold test. unfold_body.
    destruct perform_ode; along_the_body; intros; try discriminate; reflexivity.
  - unfold discard, get_current_log. unfold_body. along_the_body; reflexivity.
  - unfold discard, get_current_visuals, first_item. unfold_body.
    destruct need_GT; along_the_body; reflexivity.
  - unfold print_network. unfold_body. cbn [self env fst snd].
    destruct (get_network_description _) as [d n]. cbn [self env fst snd rank].
    destruct (rk <=? 0)%Z; reflexivity.
  - unfold save. unfold_body. along_the_body; reflexivity.
Qed.

(** From a model in training mode, after any sequence of calls other
    than [load] in which every [test] returned normally (the other calls
    may have raised), the model is in training mode. *)
Theorem perform_all_training_mode (cs : list Call) (w : World) :
  training (model (self w)) = true ->
  forallb (fun c => negb (is_load_call c)) cs = true ->
  tests_returned cs w = true ->
  training (model (self (perform_all cs w))) = true.
Proof.
  revert w. induction cs as [|c cs IH]; intros w Ht Hl Hr; [exact Ht|].
  simpl in Hl, Hr |- *.
  apply andb_true_iff in Hl as [Hc Hl]. apply andb_true_iff in Hr as [Hok Hr].
  apply negb_true_iff in Hc.
  apply IH; auto.
  pose proof (perform_training c w Hc) as H. cbv zeta in H.
  destruct (is_test_call c); [auto | congruence].
Qed.

End Lifecycle.

(** * Concrete runs for the further properties *)

Section MoreRuns.

Import Fake FakeDescription.
Local Open Scope Z_scope.

Lemma init_training_object_witness :
  init (BO := base true) (options "MultiStepLR" None) env0 = (Ok trained, built) /\
  optimizer trained = Some 0 /\
  log_dict trained = Some [] /\
  schedulers trained = [MultiStepLR_Restart SelfOptimizer 0 0 0 5 0].
Proof.
  split; [reflexivity|].
  destruct (@init_training_object runtime (base true)
              (options "MultiStepLR" None) env0 trained built eq_refl eq_refl)
    as (_ & _ & (ad & Had & Hopt) & _ & _ & _ & _ & _ & _ & Hlog & _ & Hsch & _).
  injection Had as <-.
  exact (conj Hopt (conj Hlog Hsch)).
Defined.

Lemma init_inference_object_witness :
  exists obj e',
    init (BO := base false) (options "StepLR" (Some "ckpt.pth")) env0 = (Ok obj, e') /\
    optimizer obj = None /\ log_dict obj = None /\ schedulers obj = [].
Proof.
  eexists. eexists. split; [reflexivity|].
  match goal with |- optimizer ?obj = _ /\ _ =>
    destruct (proj1 (@init_inference_object runtime (base false)
                       (options "StepLR" (Some "ckpt.pth")) env0 eq_refl) obj _ eq_refl)
      as (_ & _ & _ & Hopt & Hlog & _ & Hsch & _)
  end.
  exact (conj Hopt (conj Hlog Hsch)).
Defined.

Lemma init_collaborator_failure_witness :
  init (BO := unreadable_checkpoint) (options "MultiStepLR" (Some "ckpt.pth")) env0
  = (Raise (ExternalError "unreadable checkpoint"),
     record_calls [EvDefineG; EvLogInfo "Loading model for G [ckpt.pth] ...";
                   EvLoadNetwork "ckpt.pth" true] env0).
Proof.
  exact (proj2 (@init_collaborator_failure runtime unreadable_checkpoint
                  (options "MultiStepLR" (Some "ckpt.pth")) env0)
           (1, 0) "ckpt.pth"%string (ExternalError "unreadable checkpoint")
           eq_refl eq_refl eq_refl).
Defined.

Lemma set_mu_failure_witness :
  fst (run (test (Some refusing_sde) false false) fed env0)
    = Raise (ExternalError "bad mean") /\
  self (snd (run (test (Some refusing_sde) false false) fed env0)) = fed.
Proof.
  destruct (@set_mu_failure runtime refusing_sde fed env0 [7; 8]
              (ExternalError "bad mean") None 1 [3] false false eq_refl eq_refl)
    as [_ H].
  rewrite H. split; reflexivity.
Defined.

Lemma test_sampler_failure_witness :
  let r := run (test (Some failing_sde) true false) fed env0 in
  fst r = Raise (ExternalError "sampler diverged") /\
  output (self (snd r)) = None /\
  training (model (self (snd r))) = false /\
  grad_enabled (env (snd r)) = true.
Proof.
  cbv zeta.
  rewrite (@test_sampler_failure runtime failing_sde true false fed env0 [7; 8] [5; 6]
             (ExternalError "sampler diverged") (Some [7; 8]) (Some [7; 8])
             eq_refl eq_refl eq_refl eq_refl).
  repeat split.
Defined.

Lemma test_reads_model_state_condition_witness :
  state_0 fed <> state_0 fed_without_gt /\
  fst (run (test (Some sde) false false) fed env0)
    = fst (run (test (Some sde) false false) fed_without_gt env0) /\
  output (self (snd (run (test (Some sde) false false) fed env0)))
    = output (self (snd (run (test (Some sde) false false) fed_without_gt env0))).
Proof.
  split; [discriminate|].
  assert (Hs : same_for_test fed fed_without_gt) by (repeat split).
  destruct (@test_reads_model_state_condition runtime (Some sde) false false
              fed fed_without_gt env0 Hs) as (H1 & _ & _ & H2).
  exact (conj H1 (H2 eq_refl)).
Defined.


Lemma optimize_parameters_logs_loss_witness :
  exists ld loss,
    log_dict fed = Some ld /\
    log_dict (self (snd (run (optimize_parameters 1 [3] (Some sde)) fed env0)))
      = Some (odict_set ld "loss" (item loss)).
Proof.
  destruct (@optimize_parameters_logs_loss runtime 1 [3] (Some sde) fed env0 eq_refl)
    as (ld & loss & l & H1 & _ & _ & H2 & _).
  exists ld, loss. exact (conj H1 H2).
Defined.

Lemma second_step_overwrites_loss_witness :
  let r1 := run (optimize_parameters 1 [3] (Some sde)) fed env0 in
  let r2 := optimize_parameters 2 [3] (Some sde) (snd r1) in
  log_dict (self (snd r1)) = Some [("loss", 42)] /\
  log_dict (self (snd r2)) = Some [("loss", 126)] /\
  exists ld loss2,
    log_dict fed = Some ld /\
    log_dict (self (snd r2)) = Some (odict_set ld "loss" (item loss2)).
Proof.
  split; [reflexivity|]. split; [reflexivity|].
  destruct (@second_step_overwrites_loss runtime 1 2 [3] [3] (Some sde) (Some sde)
              fed env0 eq_refl eq_refl)
    as (ld & ld1 & loss2 & l2 & H1 & _ & _ & _ & H2 & _).
  exists ld, loss2. exact (conj H1 H2).
Defined.

Lemma get_current_visuals_errors_witness :
  fst (get_current_visuals false {| self := fed; env := env0 |})
    = Raise (AttributeError "DenoisingModel" "output") /\
  fst (get_current_visuals true
         (snd (run (test (Some sde) false false) fed_without_gt env0)))
    = Raise (AttributeError "DenoisingModel" "state_0").
Proof.
  split.
  - destruct (@get_current_visuals_errors runtime {| self := fed; env := env0 |}
                [7; 8] [7] eq_refl) as (_ & H & _).
    exact (H eq_refl eq_refl false).
  - destruct (@get_current_visuals_errors runtime
                (snd (run (test (Some sde) false false) fed_without_gt env0))
                [7; 8] [7] eq_refl) as (_ & _ & H).
    exact (H eq_refl eq_refl eq_refl).
Defined.

Lemma fresh_object_needs_data_witness :
  run (test (Some sde) false false) trained built
  = (Raise (AttributeError "DenoisingModel" "condition"),
     {| self := trained; env := built |}).
Proof.
  exact (proj1 (@fresh_object_needs_data runtime (base true)
                  (options "MultiStepLR" None) env0 trained built
                  sde 1 [3] false false true eq_refl)).
Defined.

Lemma inference_object_cannot_train_witness :
  exists obj e',
    init (BO := base false) (options "StepLR" None) env0 = (Ok obj, e') /\
    fst (optimize_parameters 1 [3] (Some sde)
           (snd (run (feed_data [5; 6] [7; 8] (Some [9; 10])) obj e')))
      = Raise (AttributeError "DenoisingModel" "optimizer").
Proof.
  eexists. eexists. split; [reflexivity|].
  match goal with |- fst (optimize_parameters _ _ _ (snd (run _ ?obj ?e'))) = _ =>
    destruct (@inference_object_cannot_train runtime (base false)
                (options "StepLR" None) env0 obj e' [5; 6] [7; 8] (Some [9; 10])
                sde (Some [7; 8]) 1 [3] eq_refl eq_refl eq_refl) as [H _]
  end.
  rewrite H. reflexivity.
Defined.

(** A session: feed, sample, a step that raises for want of ground truth,
    visuals, sample again. *)
Lemma perform_all_training_mode_witness :
  let session :=
    [CallFeedData [5; 6] [7; 8] None; CallTest (Some sde) false false;
     CallOptimizeParameters 1 [3] (Some sde); CallGetCurrentVisuals false;
     CallTest (Some sde) true false] in
  let w := {| self := trained; env := built |} in
  is_ok (fst (perform (BO := base true) (CallOptimizeParameters 1 [3] (Some sde))
                (perform_all (BO := base true) (firstn 2 session) w))) = false /\
  training (model (self (perform_all (BO := base true) session w))) = true.
Proof.
  cbv zeta. split; [reflexivity|].
  exact (@perform_all_training_mode runtime (base true) describe
           [CallFeedData [5; 6] [7; 8] None; CallTest (Some sde) false false;
            CallOptimizeParameters 1 [3] (Some sde); CallGetCurrentVisuals false;
            CallTest (Some sde) true false]
           {| self := trained; env := built |}
           eq_refl eq_refl eq_refl).
Defined.



End MoreRuns.

Section Failures.

Context {RT : Runtime} {BO : BaseOps}.

(** In training mode, with the network defined and the checkpoint
    loaded, an exception of the loss module's constructor or of Adam's is
    the constructor's exception, whatever the scheme name is: both are
    built before the scheme is looked at. *)
Theorem init_loss_or_optimizer_failure (o : Opt) (e : Env) (net : Net) (m' : Model) (x : exn) :
  base_is_train (super_init o) = true ->
  define_G o = Ok net ->
  loaded_model o net = Ok m' ->
  (MatchingLoss (loss_type (train o)) (is_weighted (train o)) = Raise x ->
   fst (init o e) = Raise x) /\
  (forall lf,
     MatchingLoss (loss_type (train o)) (is_weighted (train o)) = Ok lf ->
     Adam_new (map snd (filter trainable (named_parameters (module m'))))
       (lr_G (train o))
       (if truthy (weight_decay_G (train o)) then weight_decay_G (train o) else int_zero)
       (beta1 (train o), beta2 (train o)) = Raise x ->
     fst (init o e) = Raise x).
Proof.
  intros Htr Hnet Hm.
  assert (Hinit : init o e =
            match make_loss o with
            | Raise y => (Raise y, snd (init o e))
            | Ok lf =>
                match make_adam o (set_model m' (before_load o net)) with
                | Raise y => (Raise y, snd (init o e))
                | Ok ad => init o e
                end
            end).
  { rewrite init_cases, Hnet, load_in_constructor. unfold loaded_model in Hm |- *.
    destruct (pretrain_model_G (path o)) as [p|].
    - cbv zeta. rewrite Hm.
      change (is_train (self {| self := set_model m' (before_load o net);
                                env := record_calls
                                  [EvLogInfo ("Loading model for G [" ++ p ++ "] ...");
                                   EvLoadNetwork p (strict_load (path o))]
                                  (record_call EvDefineG e) |}))
        with (base_is_train (super_init o)).
      rewrite Htr. cbn [self env].
      destruct (make_loss o); [|reflexivity].
      cbv zeta. destruct (make_adam o _); reflexivity.
    - injection Hm as <-.
      change (is_train (self {| self := before_load o net;
                                env := record_call EvDefineG e |}))
        with (base_is_train (super_init o)).
      rewrite Htr. cbn [self env].
      replace (set_model (model (before_load o net)) (before_load o net))
        with (before_load o net) by reflexivity.
      destruct (make_loss o); [|reflexivity].
      cbv zeta. destruct (make_adam o _); reflexivity. }
  unfold make_loss, make_adam, optim_params_of in Hinit.
  cbn [model set_model] in Hinit.
  split.
  - intros Hl. rewrite Hinit, Hl. reflexivity.
  - intros lf Hl Ha. rewrite Hinit, Hl, Ha. reflexivity.
Qed.

(** With gradient tracking off a training step fails at the backward
    pass: the SDE calls and the loss have been made and the gradient
    buffers cleared, the [RuntimeError] is raised, and neither the
    optimizer state nor the log is touched. *)
Theorem optimize_parameters_without_grad (step : Value) (timesteps : Tensor) (sd : SDE)
    (s : DenoisingModel) (e : Env)
    (c x x0 : Tensor) (ad : Adam) (wt : Value) (lf : LossFn)
    (noise score expectation optimum : Tensor) (st1 st2 st3 st4 st5 : SdeSt) :
  let ts := tensor_to timesteps (device s) in
  let cleared := set_module (zero_grad ad (module (model s))) (model s) in
  let ctx := {| ctx_model := cleared; ctx_grad := false |} in
  condition s = Some c -> state s = Some x -> state_0 s = Some x0 ->
  optimizer s = Some ad -> weight s = Some wt -> loss_fn s = Some lf ->
  grad_enabled e = false ->
  set_mu sd c (sde_st e) = (Ok tt, st1) ->
  noise_fn sd ctx x (squeeze ts) st1 = (Ok noise, st2) ->
  get_score_from_noise sd noise ts st2 = (Ok score, st3) ->
  reverse_sde_step_mean sd x score ts st3 = (Ok expectation, st4) ->
  reverse_optimum_step sd x x0 ts st4 = (Ok optimum, st5) ->
  run (optimize_parameters step timesteps (Some sd)) s e
  = (Raise (RuntimeError
       "element 0 of tensors does not require grad and does not have a grad_fn"),
     {| self := set_model cleared s;
        env := {| sde_st := st5; grad_enabled := false;
                  calls := calls e ++
                    [EvSetMu c; EvZeroGrad;
                     EvNoiseFn x (squeeze ts); EvGetScoreFromNoise noise ts;
                     EvReverseSdeStepMean x score ts; EvReverseOptimumStep x x0 ts;
                     EvLossFn expectation optimum] |} |}).
Proof.
  intros ts cleared ctx Hc Hx Hx0 Had Hwt Hlf Hg H1 H2 H3 H4 H5.
  subst ts cleared ctx.
  destruct s as [o dv tr rk m os ss lf' wt' ad' ld' x' c' x0' out]; simpl in *.
  subst lf' wt' ad' x' c' x0'.
  destruct e as [st0 g cl]. simpl in *. subst g.
  unfold run, optimize_parameters. unfold_body.
  simpl. rewrite H1. simpl. rewrite H2. simpl. rewrite H3. simpl.
  rewrite H4. simpl. rewrite H5. simpl.
  unfold record_call, set_sde_st. simpl. repeat rewrite <- app_assoc. reflexivity.
Qed.

End Failures.

Section FailureRuns.

Import Fake FakeDescription.
Local Open Scope Z_scope.

(** Every parameter frozen would leave Adam without parameters; here the
    betas are out of range: the constructor raises Adam's [ValueError]
    although the scheme name is unknown too. *)
Lemma init_loss_or_optimizer_failure_witness :
  supported_scheme (lr_scheme (train bad_betas)) = false /\
  fst (init (BO := base true) bad_betas env0)
  = Raise (ValueError "Invalid beta parameter at index 0").
Proof.
  split; [reflexivity|].
  exact (proj2 (@init_loss_or_optimizer_failure runtime (base true) bad_betas env0 (1, 0)
                  {| wrapper := DataParallel; module := (1, 0); training := true |}
                  (ValueError "Invalid beta parameter at index 0")
                  eq_refl eq_refl eq_refl) true eq_refl eq_refl).
Defined.

Lemma optimize_parameters_without_grad_witness :
  let e := set_grad_enabled false env0 in
  let r := run (optimize_parameters 1 [3] (Some sde)) fed e in
  fst r = Raise (RuntimeError
            "element 0 of tensors does not require grad and does not have a grad_fn") /\
  optimizer (self (snd r)) = optimizer fed /\
  log_dict (self (snd r)) = log_dict fed.
Proof.
  cbv zeta.
  rewrite (@optimize_parameters_without_grad runtime 1 [3] sde fed
             (set_grad_enabled false env0)
             [7; 8] [5; 6] [9; 10] 0 2 true [6; 7] [-6; -7] [-1; -1] [9; 10]
             (Some [7; 8]) (Some [7; 8]) (Some [7; 8]) (Some [7; 8]) (Some [7; 8])
             eq_refl eq_refl eq_refl eq_refl eq_refl eq_refl eq_refl
             eq_refl eq_refl eq_refl eq_refl eq_refl).
  repeat split.
Defined.

End FailureRuns.
